(** * fedora.client.pkgdb: the PackageDB client, embedded and verified

    A shallow embedding of [src/fedora/client/pkgdb.py].  Python values
    are an inductive type, dictionaries are finite maps keyed by strings,
    and the methods of [PackageDB] are programs of a small state and
    exception monad whose state holds the log of the requests sent through
    [send_request] and the store of the mutable list objects the caller
    shares with the client. *)

From Stdlib Require Import String Ascii List ZArith Lia.
From stdpp Require Import base option list strings gmap functions.

Local Open Scope string_scope.
Set Warnings "-register-all".

(** ** Python values *)

Module Py.

(** The JSON-like values that travel through the client: request
    parameters and decoded response payloads.  (JSON numbers are kept to
    integers; no method of the client inspects a number.) *)
Inductive value : Type :=
| VNone : value
| VBool : bool -> value
| VInt : Z -> value
| VStr : string -> value
| VList : list value -> value
| VDict : list (string * value) -> value.

(** Python's truth value testing, [bool(v)]. *)
Definition truthy (v : value) : bool :=
  match v with
  | VNone => false
  | VBool b => b
  | VInt z => negb (Z.eqb z 0)
  | VStr s => negb (String.eqb s "")
  | VList l => match l with [] => false | _ :: _ => true end
  | VDict d => match d with [] => false | _ :: _ => true end
  end.

(** The exceptions the client can meet.  [ValueError], [TypeError] and
    [KeyError] are the interpreter's own; [OtherError] stands for the
    transport and authentication errors of the base client.

    Modelled from the spec: the class [AppError] is imported from
    [fedora.client] and is not under src/.  It is the application error
    that carries a [name] and a [message], and an [extras] attribute
    (the list of unbranched packages for a mass branch) which is [None]
    when the raiser does not give one. *)
Inductive exn : Type :=
| AppError (name : string) (message : value) (extras : value)
| PackageDBError (msg : string)
| KeyError (key : string)
| ValueError
| TypeError
| OtherError (what : string).

Inductive result (A : Type) : Type :=
| Return : A -> result A
| Raise : exn -> result A.
Arguments Return {A} _.
Arguments Raise {A} _.

(** [s.split(sep)] for a one-character separator: the pieces between
    every occurrence of [sep], in order; never the empty list. *)
Fixpoint split (sep : ascii) (s : string) : list string :=
  match s with
  | EmptyString => [""]
  | String c s' =>
      if Ascii.eqb c sep then "" :: split sep s'
      else match split sep s' with
           | [] => [String c ""]
           | piece :: rest => String c piece :: rest
           end
  end.

(** [a, b = l]: unpacking into exactly two names. *)
Definition unpack2 (l : list string) : result (string * string) :=
  match l with
  | [a; b] => Return (a, b)
  | _ => Raise ValueError
  end.

(** Occurrence of a character in a string. *)
Fixpoint occurs (c : ascii) (s : string) : bool :=
  match s with
  | EmptyString => false
  | String c' s' => Ascii.eqb c' c || occurs c s'
  end.

(** [template % args] for a template whose conversions are all of the
    form [%(key)s] and a dictionary [args] of strings: every placeholder
    is replaced by the string under its key, and the text put in is not
    scanned again.  [skip] counts the characters of a placeholder still to
    pass over. *)
Definition placeholder (key : string) : string := "%(" +:+ key +:+ ")s".

Fixpoint interpolate_from (args : list (string * string)) (template : string)
    (skip : nat) : string :=
  match template with
  | EmptyString => EmptyString
  | String c rest =>
      match skip with
      | S k => interpolate_from args rest k
      | O =>
          match find (fun kv => String.prefix (placeholder (fst kv)) template)
                  args with
          | Some (key, text) =>
              text +:+ interpolate_from args rest
                         (String.length (placeholder key) - 1)
          | None => String c (interpolate_from args rest 0)
          end
      end
  end.

Definition interpolate (template : string) (args : list (string * string))
    : string :=
  interpolate_from args template 0.

End Py.
Import Py.

(** ** Module-level data *)

Definition COLLECTIONMAP : gmap string string :=
  <["F" := "Fedora"]>
  (<["FC" := "Fedora"]>
  (<["EL" := "Fedora EPEL"]>
  (<["EPEL" := "Fedora EPEL"]>
  (<["OLPC" := "Fedora OLPC"]>
  (<["RHL" := "Red Hat Linux"]> ∅))))).

(** Modelled from the spec: [_], the gettext hook imported from [fedora],
    is not under src/; the spec quotes every message untranslated, so the
    hook is the identity here. *)
Definition gettext (msg : string) : string := msg.

Definition dash : ascii := "-"%char.

(** ** The branch-name resolver *)

(** [canonical_branch_name], over an arbitrary collection table. *)
Definition canonical_branch_name_in (table : gmap string string)
    (branch : string) : result (string * string) :=
  if bool_decide (branch = "devel") then Return ("Fedora", "devel")
  else
    match unpack2 (split dash branch) with
    | Raise e => Raise e
    | Return (collection, version) =>
        match table !! collection with
        | Some collection' => Return (collection', version)
        | None =>
            Raise (PackageDBError
                     (interpolate
                        (gettext "Collection abbreviation %(collection)s is unknown.  Use F, FC, EL, or OLPC")
                        [("collection", collection)]))
        end
    end.

Definition canonical_branch_name : string -> result (string * string) :=
  canonical_branch_name_in COLLECTIONMAP.

(** ** The world of a client: request log and object store *)

(** One call of [send_request(method, req_params=None, auth=False)]. *)
Record request : Type := Request {
  path : string;
  auth : bool;
  req_params : option (gmap string value)
}.

(** Decoded response payloads are dictionaries ([DictContainer]). *)
Abbreviation payload := (gmap string value).

(** List objects are held by reference, so that a list the caller passes
    in and the list the client appends to are one object. *)
Definition loc := nat.

Record world : Type := World {
  log : list (request * result payload);
  heap : loc -> list string
}.

(** ** The state and exception monad of the methods *)

Definition M (A : Type) : Type := world -> result A * world.

Definition ret {A} (a : A) : M A := fun w => (Return a, w).
Definition raise {A} (e : exn) : M A := fun w => (Raise e, w).
Definition bind {A B} (m : M A) (k : A -> M B) : M B :=
  fun w => match m w with
           | (Return a, w') => k a w'
           | (Raise e, w') => (Raise e, w')
           end.
Definition lift {A} (r : result A) : M A := fun w => (r, w).

(** [try: body / except AppError: handler]. *)
Definition try_except_AppError {A} (body handler : M A) : M A :=
  fun w => match body w with
           | (Raise (AppError _ _ _), w') => handler w'
           | other => other
           end.

Notation "x <~ m ;; k" := (bind m (fun x => k))
  (at level 100, m at next level, right associativity).
Notation "m ;;; k" := (bind m (fun _ => k))
  (at level 100, right associativity).

(** Reading a list object, and [l.append(x)]. *)
Definition deref (l : loc) : M (list string) := fun w => (Return (heap w l), w).
Definition append (l : loc) (x : string) : M unit :=
  fun w => (Return tt, World (log w) (<[l := (heap w l ++ [x])%list]> (heap w))).

(** [d[k]] on a dictionary. *)
Definition getitem (d : payload) (k : string) : M value :=
  match d !! k with
  | Some v => ret v
  | None => raise (KeyError k)
  end.

(** ['status' in d and not d['status']]. *)
Definition status_failed (d : payload) : bool :=
  match d !! "status" with
  | Some s => negb (truthy s)
  | None => false
  end.

(** ** The methods of [PackageDB] *)

Section Client.

(** The base client and the remote service: what [send_request] gives
    back for a request, given the requests already made.  It either
    returns the decoded payload or raises (an [AppError] for the server's
    own error envelope, or a transport or authentication error). *)
Variable server : list request -> request -> result payload.

(** The interpreter's [str()], as the conversion [%(msg)s] applies it to
    a value, and [simplejson.dumps]. *)
Variable py_str : value -> string.
Variable dumps : value -> string.

Definition send_request (method : string) (auth : bool)
    (req_params : option payload) : M payload :=
  fun w =>
    let req := Request method auth req_params in
    let out := server (map fst (log w)) req in
    (out, World (log w ++ [(req, out)])%list (heap w)).

Definition get_package_info (pkg : string) (branch : option string)
    : M payload :=
  data <~ match branch with
          | Some b =>
              if truthy (VStr b) then
                cv <~ lift (canonical_branch_name b) ;;
                let (collection, ver) := cv in
                ret (Some (<["collectionName" := VStr collection]>
                           (<["collectionVersion" := VStr ver]> ∅)))
              else ret None
          | None => ret None
          end ;;
  pkg_info <~ send_request ("/packages/name/" +:+ pkg) false data ;;
  if status_failed pkg_info then
    message <~ getitem pkg_info "message" ;;
    raise (AppError "PackageDBError" message VNone)
  else ret pkg_info.

Definition clone_branch (pkg branch master : string) (email_log : value)
    : M payload :=
  let params := <["email_log" := email_log]> (∅ : payload) in
  send_request ("/packages/dispatcher/clone_branch/" +:+ pkg +:+ "/"
                +:+ branch +:+ "/" +:+ master) true (Some params).

Definition mass_branch (branch : string) : M payload :=
  send_request ("/collections/mass_branch/" +:+ branch) true None.

(** The branches argument of [add_edit_package] is [None] or a reference
    to the caller's list object.

    [if 'devel' not in branches: branches.append('devel')]: on [None] the
    membership test raises, on a list the append is done in place. *)
Definition ensure_devel (branches : option loc) : M unit :=
  match branches with
  | None => raise TypeError
  | Some l =>
      bs <~ deref l ;;
      if bool_decide ("devel" ∈ bs) then ret tt else append l "devel"
  end.

(** [if branches: data['collections'] = branches]; the parameter is the
    list object itself, whose elements are read when the request is
    sent. *)
Definition set_collections (branches : option loc) (data : payload)
    : M payload :=
  match branches with
  | None => ret data
  | Some l =>
      bs <~ deref l ;;
      ret (match bs with
           | [] => data
           | _ :: _ => <["collections" := VList (VStr <$> bs)]> data
           end)
  end.

(** [if v: data[k] = f(v)]. *)
Definition set_if (k : string) (v : value) (f : value -> value)
    (data : payload) : payload :=
  if truthy v then <[k := f v]> data else data.

Definition add_edit_package (pkg : string) (owner description : value)
    (branches : option loc) (cc_list comaintainers groups : value)
    : M unit :=
  (* Check if the package exists *)
  od <~ try_except_AppError
          (get_package_info pkg None ;;; ret (owner, description))
          (if truthy owner then
             ensure_devel branches ;;;
             let data : payload :=
               <["package" := VStr pkg]>
               (<["owner" := owner]>
               (<["summary" := description]> ∅)) in
             response <~ send_request "/packages/dispatcher/add_package"
                           true (Some data) ;;
             if status_failed response then
               msg <~ getitem response "message" ;;
               raise (AppError "PackageDBError"
                        (VStr (interpolate
                                 (gettext "PackageDB returned an error creating %(pkg)s: %(msg)s")
                                 [("pkg", pkg); ("msg", py_str msg)]))
                        VNone)
             else ret (VNone, VNone)
           else
             raise (PackageDBError
                      (interpolate
                         (gettext "Package %(pkg)s does not exist and we do not have enough information to create it.")
                         [("pkg", pkg)]))) ;;
  let (owner, description) := od : value * value in
  (* Change the branches, owners, or anything else that needs changing *)
  let data : payload :=
    set_if "groups" groups (fun v => VStr (dumps v))
    (set_if "comaintList" comaintainers (fun v => VStr (dumps v))
    (set_if "ccList" cc_list (fun v => VStr (dumps v))
    (set_if "summary" description id
    (set_if "owner" owner id ∅)))) in
  data <~ set_collections branches data ;;
  (* Request the changes *)
  response <~ send_request ("/packages/dispatcher/edit_package/" +:+ pkg)
                true (Some data) ;;
  if status_failed response then
    msg <~ getitem response "message" ;;
    raise (AppError "PackageDBError"
             (VStr (interpolate
                      (gettext "Unable to save all information for %(pkg)s: %(msg)s")
                      [("pkg", pkg); ("msg", py_str msg)]))
             VNone)
  else ret tt.

Definition get_owners (package : string)
    (collection collection_ver : option string) : M payload :=
  let method := "/packages/name/" +:+ package in
  let method :=
    match collection with
    | Some c =>
        if truthy (VStr c) then
          let method := method +:+ "/" +:+ c in
          match collection_ver with
          | Some v => if truthy (VStr v) then method +:+ "/" +:+ v else method
          | None => method
          end
        else method
    | None => method
    end in
  response <~ send_request method false None ;;
  if status_failed response then
    message <~ getitem response "message" ;;
    raise (AppError "PackageDBError" message VNone)
  else ret response.

Definition remove_user (username pkg_name : string) (collectn_list : value)
    : M payload :=
  let params : payload :=
    if truthy collectn_list then
      <["username" := VStr username]>
      (<["pkg_name" := VStr pkg_name]>
      (<["collectn_list" := collectn_list]> ∅))
    else
      <["username" := VStr username]>
      (<["pkg_name" := VStr pkg_name]> ∅) in
  send_request "/packages/dispatcher/remove_user" true (Some params).

End Client.

(** ** Vocabulary of the statements *)

(** [needle in hay] on strings. *)
Fixpoint contains (needle hay : string) : bool :=
  String.prefix needle hay
  || match hay with
     | EmptyString => false
     | String _ rest => contains needle rest
     end.

(** The payload "contains a [status] field that is falsy". *)
Definition has_falsy_status (p : payload) : Prop :=
  exists s, p !! "status" = Some s /\ truthy s = false.

(** Running [m] from [w] sent requests and the last one was answered by
    the payload [p]. *)
Definition received {A} (m : M A) (w : world) (p : payload) : Prop :=
  exists earlier req,
    log (snd (m w)) = (log w ++ earlier ++ [(req, Return p)])%list.

Definition is_AppError {A} (r : result A) : bool :=
  match r with
  | Raise (AppError _ _ _) => true
  | _ => false
  end.

(** The requests of [add_edit_package]. *)
Definition lookup_request (pkg : string) : request :=
  Request ("/packages/name/" +:+ pkg) false None.

Definition create_request (pkg : string) (owner description : value)
    : request :=
  Request "/packages/dispatcher/add_package" true
    (Some (<["package" := VStr pkg]>
           (<["owner" := owner]>
           (<["summary" := description]> ∅)))).

Definition edit_request (pkg : string) (data : payload) : request :=
  Request ("/packages/dispatcher/edit_package/" +:+ pkg) true (Some data).

(** Every entry of a stretch of the log pairs a request with what the
    service answered to it, given the requests made before it. *)
Fixpoint answered (server : list request -> request -> result payload)
    (before : list request) (calls : list (request * result payload))
    : Prop :=
  match calls with
  | [] => True
  | (req, out) :: rest =>
      out = server before req /\ answered server (before ++ [req])%list rest
  end.

(** [m] sends at most [n] requests, whatever the world it starts from,
    and has the answer to each of them when it ends. *)
Definition issues {A} (server : list request -> request -> result payload)
    (m : M A) (n : nat) : Prop :=
  forall w, exists calls,
    log (snd (m w)) = (log w ++ calls)%list
    /\ length calls <= n
    /\ answered server (map fst (log w)) calls.

(** What a status-checked request does: one request, then the check of
    the answer. *)
Definition checked (server : list request -> request -> result payload)
    (req : request) (w : world) : result payload * world :=
  let out := server (map fst (log w)) req in
  let w' := World (log w ++ [(req, out)])%list (heap w) in
  match out with
  | Return p =>
      if status_failed p then
        match p !! "message" with
        | Some m => (Raise (AppError "PackageDBError" m VNone), w')
        | None => (Raise (KeyError "message"), w')
        end
      else (Return p, w')
  | Raise e => (Raise e, w')
  end.

Definition mass_branch_request (branch : string) : request :=
  Request ("/collections/mass_branch/" +:+ branch) true None.

(** [m] leaves every list object as it found it. *)
Definition keeps_heap {A} (m : M A) : Prop :=
  forall w, heap (snd (m w)) = heap w.

(** ** Test services *)

Module Demo.

Definition no_such_package : payload :=
  <["status" := VBool false]> (<["message" := VStr "no such package"]> ∅).

Definition bash_info : payload :=
  <["status" := VBool true]> (<["name" := VStr "bash"]> ∅).

Definition status_only : payload := <["status" := VBool false]> ∅.

Definition partial_branch : payload :=
  <["status" := VBool false]>
  (<["message" := VStr "partial"]>
  (<["extras" := VList [VStr "pkgA"; VStr "pkgB"]]> ∅)).

(** A service that answers every request with the same payload. *)
Definition always (p : payload) (_ : list request) (_ : request)
    : result payload := Return p.

(** A service on which every package lookup fails and every other request
    succeeds with an empty payload. *)
Definition absent_server (_ : list request) (r : request) : result payload :=
  if String.prefix "/packages/name/" (path r) then Return no_such_package
  else Return ∅.

(** A base client that decodes the server's exception envelope of a mass
    branch into an [AppError] with its extras. *)
Definition raising_server (_ : list request) (_ : request) : result payload :=
  Raise (AppError "MassBranchError" (VStr "partial")
           (VList [VStr "pkgA"; VStr "pkgB"])).

Definition str_of (v : value) : string :=
  match v with VStr s => s | _ => "?" end.

Definition w0 : world := World [] (fun _ => []).
Definition w1 : world := World [] (<[7 := ["F-10"]]> (fun _ => [])).
Definition w2 : world := World [] (<[7 := ["devel"]]> (fun _ => [])).

End Demo.

(** ** The constructor *)

Definition default_base_url : string := "https://admin.fedoraproject.org/pkgdb/".

(** [PackageDB.__init__(self, base_url=..., *args, **kwargs)]: what the
    constructor hands to [BaseClient.__init__], namely the base URL, the
    further positional arguments and the keyword arguments.  [base_url] is
    [None] when the caller leaves it out.  [version] is [__version__] of
    the [fedora] package, a string, so that ['...%s' % __version__] puts
    it at the end of the text. *)
Definition PackageDB_init (version : string) (base_url : option string)
    (args : list value) (kwargs : gmap string value)
    : string * list value * gmap string value :=
  let kwargs :=
    if bool_decide (kwargs !! "useragent" = None)
    then <["useragent" := VStr ("Fedora PackageDB Client/" +:+ version)]> kwargs
    else kwargs in
  (default default_base_url base_url, args, kwargs).

(** ** Further vocabulary *)

(** [if o:] on an optional string argument. *)
Definition given (o : option string) : bool :=
  match o with
  | Some s => truthy (VStr s)
  | None => false
  end.

(** Every request that [m] sends satisfies [P]. *)
Definition sends {A} (P : request -> Prop) (m : M A) : Prop :=
  forall w, exists calls,
    log (snd (m w)) = (log w ++ calls)%list
    /\ Forall (fun call => P (fst call)) calls.

(** A request is authenticated exactly when it is not a lookup under
    [/packages/name/]. *)
Definition auth_discipline (r : request) : Prop :=
  auth r = negb (String.prefix "/packages/name/" (path r)).

(** The parameters of a branch-scoped package lookup. *)
Definition branch_params (collection ver : string) : payload :=
  <["collectionName" := VStr collection]>
  (<["collectionVersion" := VStr ver]> ∅).

(** The list objects after
    [if 'devel' not in branches: branches.append('devel')] on the list
    at [l]. *)
Definition with_devel (l : loc) (h : loc -> list string) : loc -> list string :=
  if bool_decide ("devel" ∈ h l) then h
  else <[l := (h l ++ ["devel"])%list]> h.

Section Steps.

Variable server : list request -> request -> result payload.
Variable py_str : value -> string.
Variable dumps : value -> string.

(** The two halves of [add_edit_package]: the [try] statement of lines
    171-195, which gives the owner and description still to be applied,
    and the edit of lines 197-223. *)
Definition create_step (pkg : string) (owner description : value)
    (branches : option loc) : M (value * value) :=
  try_except_AppError
    (get_package_info server pkg None ;;; ret (owner, description))
    (if truthy owner then
       ensure_devel branches ;;;
       let data : payload :=
         <["package" := VStr pkg]>
         (<["owner" := owner]>
         (<["summary" := description]> ∅)) in
       response <~ send_request server "/packages/dispatcher/add_package"
                     true (Some data) ;;
       if status_failed response then
         msg <~ getitem response "message" ;;
         raise (AppError "PackageDBError"
                  (VStr (interpolate
                           (gettext "PackageDB returned an error creating %(pkg)s: %(msg)s")
                           [("pkg", pkg); ("msg", py_str msg)]))
                  VNone)
       else ret (VNone, VNone)
     else
       raise (PackageDBError
                (interpolate
                   (gettext "Package %(pkg)s does not exist and we do not have enough information to create it.")
                   [("pkg", pkg)]))).

Definition edit_step (pkg : string) (owner description : value)
    (branches : option loc) (cc_list comaintainers groups : value) : M unit :=
  let data : payload :=
    set_if "groups" groups (fun v => VStr (dumps v))
    (set_if "comaintList" comaintainers (fun v => VStr (dumps v))
    (set_if "ccList" cc_list (fun v => VStr (dumps v))
    (set_if "summary" description id
    (set_if "owner" owner id ∅)))) in
  data <~ set_collections branches data ;;
  response <~ send_request server ("/packages/dispatcher/edit_package/" +:+ pkg)
                true (Some data) ;;
  if status_failed response then
    msg <~ getitem response "message" ;;
    raise (AppError "PackageDBError"
             (VStr (interpolate
                      (gettext "Unable to save all information for %(pkg)s: %(msg)s")
                      [("pkg", pkg); ("msg", py_str msg)]))
             VNone)
  else ret tt.

(** The parameters that [edit_step] sends, given the list objects. *)
Definition edit_data (owner description : value) (branches : option loc)
    (cc_list comaintainers groups : value) (h : loc -> list string) : payload :=
  let data : payload :=
    set_if "groups" groups (fun v => VStr (dumps v))
    (set_if "comaintList" comaintainers (fun v => VStr (dumps v))
    (set_if "ccList" cc_list (fun v => VStr (dumps v))
    (set_if "summary" description id
    (set_if "owner" owner id ∅)))) in
  match branches with
  | None => data
  | Some l =>
      match h l with
      | [] => data
      | _ :: _ => <["collections" := VList (VStr <$> h l)]> data
      end
  end.

(** What a dispatcher request of [add_edit_package] makes of its answer:
    [doing] is the text that opens the error message. *)
Definition dispatcher_outcome {A} (doing pkg : string) (a : A)
    (reply : result payload) : result A :=
  match reply with
  | Return r =>
      if status_failed r then
        match r !! "message" with
        | Some msg =>
            Raise (AppError "PackageDBError"
                     (VStr (doing +:+ pkg +:+ ": " +:+ py_str msg)) VNone)
        | None => Raise (KeyError "message")
        end
      else Return a
  | Raise e => Raise e
  end.

(** A call of [add_edit_package], and a run of calls one after the
    other, whatever their outcomes. *)
Record call : Type := Call {
  call_pkg : string;
  call_owner : value;
  call_description : value;
  call_branches : option loc;
  call_cc_list : value;
  call_comaintainers : value;
  call_groups : value
}.

Definition run_call (c : call) : M unit :=
  add_edit_package server py_str dumps (call_pkg c) (call_owner c)
    (call_description c) (call_branches c) (call_cc_list c)
    (call_comaintainers c) (call_groups c).

Fixpoint run_calls (cs : list call) (w : world) : world :=
  match cs with
  | [] => w
  | c :: rest => run_calls rest (snd (run_call c w))
  end.

End Steps.

(** Further test services. *)
Module Demo2.

Definition denied : payload :=
  <["status" := VBool false]> (<["message" := VStr "denied"]> ∅).

(** Lookups fail, and so does every dispatcher request. *)
Definition refusing_server (_ : list request) (r : request) : result payload :=
  if String.prefix "/packages/name/" (path r)
  then Return Demo.no_such_package
  else Return denied.

(** Lookups succeed, dispatcher requests are refused. *)
Definition readonly_server (_ : list request) (r : request) : result payload :=
  if String.prefix "/packages/name/" (path r)
  then Return Demo.bash_info
  else Return denied.

(** The base client cannot reach the service. *)
Definition down_server (_ : list request) (_ : request) : result payload :=
  Raise (OtherError "ServerError").

End Demo2.

(** * Properties *)

(** ** Strings *)

Section Strings.

Variable sep : ascii.

Lemma split_nonempty s : split sep s <> [].
Proof.
  destruct s as [|c s]; simpl; [discriminate|].
  destruct (Ascii.eqb c sep); [discriminate|].
  destruct (split sep s); discriminate.
Qed.

Lemma split_without_sep s : occurs sep s = false -> split sep s = [s].
Proof.
  induction s as [|c s IH]; simpl; [reflexivity|].
  intros [Hc Hs]%orb_false_elim.
  rewrite Hc, (IH Hs). reflexivity.
Qed.

Lemma split_at_sep p v :
  occurs sep p = false -> split sep (p +:+ String sep v) = p :: split sep v.
Proof.
  induction p as [|c p IH]; simpl.
  - intros _. rewrite Ascii.eqb_refl. reflexivity.
  - intros [Hc Hp]%orb_false_elim.
    rewrite Hc, (IH Hp). reflexivity.
Qed.

Lemma occurs_app p v : occurs sep (p +:+ v) = occurs sep p || occurs sep v.
Proof.
  induction p as [|c p IH]; simpl; [reflexivity|].
  rewrite IH, orb_assoc. reflexivity.
Qed.

(** A string with exactly one separator splits in two. *)
Lemma split_once p v :
  occurs sep p = false -> occurs sep v = false ->
  split sep (p +:+ String sep v) = [p; v].
Proof.
  intros Hp Hv. rewrite (split_at_sep _ _ Hp), (split_without_sep _ Hv).
  reflexivity.
Qed.

(** A string with two separators or more splits in three pieces or more. *)
Lemma split_twice p v u :
  occurs sep p = false ->
  exists a b rest, split sep (p +:+ String sep (v +:+ String sep u)) = p :: a :: b :: rest.
Proof.
  intros Hp. rewrite (split_at_sep _ _ Hp).
  induction v as [|c v IH]; simpl.
  - rewrite Ascii.eqb_refl.
    destruct (split sep u) as [|b rest] eqn:E; [by apply split_nonempty in E|].
    by exists "", b, rest.
  - destruct (Ascii.eqb c sep).
    + destruct IH as (a & b & rest & [= ->]). by exists "", a, (b :: rest).
    + destruct IH as (a & b & rest & [= ->]). by exists (String c a), b, rest.
Qed.

Lemma occurs_inv s :
  occurs sep s = true -> exists v u, s = v +:+ String sep u.
Proof.
  induction s as [|c s IH]; simpl; [discriminate|].
  destruct (Ascii.eqb c sep) eqn:Hc.
  - intros _. apply Ascii.eqb_eq in Hc as ->. by exists "", s.
  - intros (v & u & ->)%IH. by exists (String c v), u.
Qed.

End Strings.

Example interpolate_two :
  interpolate "Unable to save all information for %(pkg)s: %(msg)s"
    [("pkg", "bash"); ("msg", "denied")]
  = "Unable to save all information for bash: denied".
Proof. reflexivity. Qed.

(** ** The collection table *)

Lemma COLLECTIONMAP_keys (P c : string) :
  COLLECTIONMAP !! P = Some c ->
  P ∈ ["F"; "FC"; "EL"; "EPEL"; "OLPC"; "RHL"].
Proof.
  unfold COLLECTIONMAP. intros H.
  repeat (apply lookup_insert_Some in H as [[<- _]|[_ H]]; [set_solver|]).
  by rewrite lookup_empty in H.
Qed.

Lemma COLLECTIONMAP_key_dashless (P c : string) :
  COLLECTIONMAP !! P = Some c -> occurs dash P = false.
Proof.
  intros H%COLLECTIONMAP_keys.
  repeat (apply elem_of_cons in H as [->|H]; [reflexivity|]).
  by apply elem_of_nil in H.
Qed.

Lemma dashed_not_devel (p v : string) : p +:+ "-" +:+ v <> "devel".
Proof.
  intros E. pose proof (occurs_app dash p ("-" +:+ v)) as H.
  rewrite E in H. simpl in H. rewrite orb_true_r in H. discriminate.
Qed.

(** ** The branch-name resolver *)

Lemma canonical_branch_name_split (table : gmap string string) (p v : string) :
  occurs dash p = false -> occurs dash v = false ->
  canonical_branch_name_in table (p +:+ "-" +:+ v) =
    match table !! p with
    | Some c => Return (c, v)
    | None => Raise (PackageDBError
                       ("Collection abbreviation " +:+ p
                        +:+ " is unknown.  Use F, FC, EL, or OLPC"))
    end.
Proof.
  intros Hp Hv. unfold canonical_branch_name_in.
  rewrite (bool_decide_eq_false_2 _ (dashed_not_devel p v)).
  change ("-" +:+ v) with (String dash v).
  rewrite (split_once dash _ _ Hp Hv). reflexivity.
Qed.

(** C2, as the code has it: for every prefix [P] of the collection map
    and every version [V] that holds no further "-",
    [canonical_branch_name "P-V"] returns [(COLLECTIONMAP[P], V)]; and
    "devel" resolves to [("Fedora", "devel")] whatever the table holds. *)
Theorem canonical_branch_name_recognized
    (P c V : string) (table : gmap string string) :
  COLLECTIONMAP !! P = Some c ->
  occurs dash V = false ->
  canonical_branch_name (P +:+ "-" +:+ V) = Return (c, V)
  /\ canonical_branch_name_in table "devel" = Return ("Fedora", "devel").
Proof.
  intros HP HV. split; [|reflexivity].
  unfold canonical_branch_name.
  rewrite canonical_branch_name_split by eauto using COLLECTIONMAP_key_dashless.
  by rewrite HP.
Qed.

Lemma canonical_branch_name_recognized_witness :
  COLLECTIONMAP !! "FC" = Some "Fedora"
  /\ occurs dash "6" = false
  /\ canonical_branch_name "FC-6" = Return ("Fedora", "6")
  /\ canonical_branch_name_in ∅ "devel" = Return ("Fedora", "devel").
Proof.
  split; [vm_compute; reflexivity|]. split; [reflexivity|].
  apply (canonical_branch_name_recognized "FC" "Fedora" "6" ∅);
    [vm_compute; reflexivity | reflexivity].
Defined.

(** C2 as stated fails for a version that itself holds a "-": the token
    splits in three and the unpacking raises. *)
Lemma canonical_branch_name_dashed_version :
  COLLECTIONMAP !! "F" = Some "Fedora"
  /\ canonical_branch_name ("F" +:+ "-" +:+ "1-2") = Raise ValueError
  /\ canonical_branch_name ("F" +:+ "-" +:+ "1-2") <> Return ("Fedora", "1-2").
Proof.
  split; [vm_compute; reflexivity|].
  split; [vm_compute; reflexivity|].
  vm_compute. discriminate.
Qed.

Lemma canonical_branch_name_many_dashes (prefix rest : string) :
  occurs dash prefix = false -> occurs dash rest = true ->
  canonical_branch_name (prefix +:+ "-" +:+ rest) = Raise ValueError.
Proof.
  intros Hp (v & u & ->)%occurs_inv.
  unfold canonical_branch_name, canonical_branch_name_in.
  rewrite (bool_decide_eq_false_2 _ (dashed_not_devel _ _)).
  change ("-" +:+ v +:+ String dash u) with (String dash (v +:+ String dash u)).
  by destruct (split_twice dash prefix v u Hp) as (a & b & rest & ->).
Qed.

(** C6, as the code has it: a token other than "devel" fails locally, and
    reaches the caller of [get_package_info] with no request sent, both
    when it has no "-" and when its prefix, the text before the first "-",
    is not a key of the collection map.  The error is [PackageDBError]
    when the token has one "-" and an unknown prefix, and the
    [ValueError] of the unpacking when it has no "-" or more than one.
    The message of the [PackageDBError] names the prefix and lists F, FC,
    EL and OLPC, four of the six keys of the map. *)
Theorem canonical_branch_name_rejects (branch : string) :
  branch <> "devel" ->
  (occurs dash branch = false ->
     canonical_branch_name branch = Raise ValueError)
  /\ (forall prefix version,
        branch = prefix +:+ "-" +:+ version ->
        occurs dash prefix = false ->
        COLLECTIONMAP !! prefix = None ->
        canonical_branch_name branch =
          if occurs dash version then Raise ValueError
          else Raise (PackageDBError
                        ("Collection abbreviation " +:+ prefix
                         +:+ " is unknown.  Use F, FC, EL, or OLPC")))
  /\ Forall (fun k => is_Some (COLLECTIONMAP !! k)) ["F"; "FC"; "EL"; "OLPC"]
  /\ dom COLLECTIONMAP
     = ({["F"; "FC"; "EL"; "OLPC"; "EPEL"; "RHL"]} : gset string)
  /\ (forall e server pkg w,
        canonical_branch_name branch = Raise e -> branch <> "" ->
        get_package_info server pkg (Some branch) w = (Raise e, w)).
Proof.
  intros Hdevel. split; [|split; [|split; [|split]]].
  - intros Hnone. unfold canonical_branch_name, canonical_branch_name_in.
    rewrite (bool_decide_eq_false_2 _ Hdevel).
    by rewrite (split_without_sep dash _ Hnone).
  - intros prefix version -> Hp Hkey.
    destruct (occurs dash version) eqn:Hv.
    + by apply canonical_branch_name_many_dashes.
    + unfold canonical_branch_name.
      rewrite (canonical_branch_name_split _ _ _ Hp Hv). by rewrite Hkey.
  - repeat constructor; by eexists.
  - unfold COLLECTIONMAP. rewrite !dom_insert_L, dom_empty_L. set_solver.
  - intros e server pkg w He Hne.
    unfold get_package_info, bind, lift. simpl.
    apply String.eqb_neq in Hne. rewrite Hne. simpl.
    by rewrite He.
Qed.

Lemma canonical_branch_name_rejects_witness :
  "ZZ-1" <> "devel"
  /\ canonical_branch_name "ZZ-1" =
       Raise (PackageDBError
                "Collection abbreviation ZZ is unknown.  Use F, FC, EL, or OLPC").
Proof.
  split; [discriminate|].
  apply (proj1 (proj2 (canonical_branch_name_rejects "ZZ-1" ltac:(discriminate)))
           "ZZ" "1"); reflexivity.
Defined.

(** C6 as stated fails in three places.  A token with no "-" fails with
    the interpreter's [ValueError], not with the client's
    [PackageDBError]; so does a token whose prefix is unknown and whose
    version holds a further "-"; and the message of the [PackageDBError]
    does not enumerate the accepted prefixes: EPEL and RHL are keys of the
    map, are accepted, and are not in the message. *)
Lemma canonical_branch_name_not_domain_error :
  ("rawhide" <> "devel"
   /\ occurs dash "rawhide" = false
   /\ canonical_branch_name "rawhide" = Raise ValueError
   /\ forall msg, canonical_branch_name "rawhide" <> Raise (PackageDBError msg))
  /\ ("ZZ-1-2" <> "devel"
      /\ "ZZ-1-2" = "ZZ" +:+ "-" +:+ "1-2"
      /\ COLLECTIONMAP !! "ZZ" = None
      /\ canonical_branch_name "ZZ-1-2" = Raise ValueError
      /\ forall msg, canonical_branch_name "ZZ-1-2" <> Raise (PackageDBError msg))
  /\ (exists msg,
        canonical_branch_name "ZZ-1" = Raise (PackageDBError msg)
        /\ canonical_branch_name "EPEL-5" = Return ("Fedora EPEL", "5")
        /\ contains "EPEL" msg = false
        /\ canonical_branch_name "RHL-9" = Return ("Red Hat Linux", "9")
        /\ contains "RHL" msg = false
        /\ contains "ZZ" msg = true
        /\ contains "OLPC" msg = true).
Proof.
  split; [|split].
  - split; [discriminate|]. split; [reflexivity|].
    split; [vm_compute; reflexivity|].
    intros msg. vm_compute. discriminate.
  - split; [discriminate|]. split; [reflexivity|].
    split; [vm_compute; reflexivity|].
    split; [vm_compute; reflexivity|].
    intros msg. vm_compute. discriminate.
  - eexists. split; [vm_compute; reflexivity|].
    repeat split; vm_compute; reflexivity.
Qed.

(** ** The request log *)

Section ClientProperties.

Variable server : list request -> request -> result payload.
Variable py_str : value -> string.
Variable dumps : value -> string.

Lemma status_failed_iff (p : payload) :
  status_failed p = true <-> has_falsy_status p.
Proof.
  unfold status_failed, has_falsy_status. split.
  - destruct (p !! "status") as [s|]; [|discriminate].
    intros H%negb_true_iff. eauto.
  - intros (s & -> & ->). reflexivity.
Qed.

Lemma log_tail_inv {A} (l l1 l2 : list A) (x y : A) :
  (l ++ [x] = l ++ l1 ++ [y])%list -> x = y.
Proof.
  intros H%app_inv_head. destruct l1 as [|a l1]; simpl in H.
  - congruence.
  - injection H as _ H. destruct l1; discriminate.
Qed.

Lemma send_checked (req : request) (w : world) :
  (response <~ send_request server (path req) (auth req) (req_params req) ;;
   if status_failed response then
     message <~ getitem response "message" ;;
     raise (AppError "PackageDBError" message VNone)
   else ret response) w = checked server req w.
Proof.
  destruct req as [method a params].
  unfold checked, bind, ret, send_request. simpl.
  destruct (server _ _) as [p|e]; [|reflexivity].
  destruct (status_failed p); [|reflexivity].
  unfold getitem. destruct (p !! "message"); reflexivity.
Qed.

Lemma get_package_info_None (pkg : string) (w : world) :
  get_package_info server pkg None w = checked server (lookup_request pkg) w.
Proof. apply (send_checked (lookup_request pkg)). Qed.

(** Either the branch is rejected before anything is sent, or the method
    is one checked request. *)
Lemma get_package_info_cases (pkg : string) (branch : option string) (w : world) :
  (exists e, get_package_info server pkg branch w = (Raise e, w))
  \/ (exists req, get_package_info server pkg branch w = checked server req w).
Proof.
  destruct branch as [b|]; [|right; eexists; apply get_package_info_None].
  unfold get_package_info. simpl.
  destruct (negb (b =? ""))%string.
  - unfold bind at 1. unfold bind at 1. unfold lift at 1.
    destruct (canonical_branch_name b) as [[c v]|e]; [|left; by eexists].
    right. eexists (Request _ false _). apply (send_checked (Request _ _ _)).
  - right. eexists (Request _ false _). apply (send_checked (Request _ _ _)).
Qed.

Lemma get_owners_checked (package : string) (c cv : option string) (w : world) :
  exists req, get_owners server package c cv w = checked server req w.
Proof.
  eexists (Request _ false None). apply (send_checked (Request _ _ _)).
Qed.

Lemma checked_received (req : request) (w : world) (p : payload) :
  received (checked server req) w p ->
  (has_falsy_status p ->
     fst (checked server req w) =
       match p !! "message" with
       | Some m => Raise (AppError "PackageDBError" m VNone)
       | None => Raise (KeyError "message")
       end)
  /\ (~ has_falsy_status p -> fst (checked server req w) = Return p).
Proof.
  intros (earlier & req' & Hlog).
  assert (server (map fst (log w)) req = Return p) as Hout.
  { unfold checked in Hlog.
    destruct (server _ _) as [q|e].
    - destruct (status_failed q); [destruct (q !! "message")|];
        simpl in Hlog; apply log_tail_inv in Hlog; congruence.
    - simpl in Hlog; apply log_tail_inv in Hlog; congruence. }
  unfold checked. rewrite Hout. split.
  - intros ->%status_failed_iff. by destruct (p !! "message").
  - intros Hok. destruct (status_failed p) eqn:E; [|reflexivity].
    by apply status_failed_iff in E.
Qed.

Lemma log_no_growth {A} (l l1 : list A) (x : A) :
  (l = l ++ l1 ++ [x])%list -> False.
Proof.
  intros H%(f_equal length). rewrite !length_app in H. simpl in H. lia.
Qed.

(** ** Counting requests *)

Lemma answered_app (before : list request) (c1 c2 : list (request * result payload)) :
  answered server before c1 ->
  answered server (before ++ map fst c1) c2 ->
  answered server before (c1 ++ c2).
Proof.
  revert before. induction c1 as [|[req out] c1 IH]; simpl; intros before.
  - intros _. by rewrite app_nil_r.
  - intros [-> H1] H2. split; [reflexivity|].
    apply IH; [done|]. by rewrite <- app_assoc.
Qed.

Lemma issues_silent {A} (m : M A) :
  (forall w, snd (m w) = w) -> issues server m 0.
Proof.
  intros H w. exists []. rewrite H, app_nil_r. simpl. auto.
Qed.

Lemma issues_ret {A} (a : A) : issues server (ret a) 0.
Proof. by apply issues_silent. Qed.

Lemma issues_raise {A} (e : exn) : issues server (raise (A := A) e) 0.
Proof. by apply issues_silent. Qed.

Lemma issues_lift {A} (r : result A) : issues server (lift r) 0.
Proof. by apply issues_silent. Qed.

Lemma issues_getitem (d : payload) (k : string) : issues server (getitem d k) 0.
Proof. unfold getitem. destruct (d !! k); [apply issues_ret | apply issues_raise]. Qed.

Lemma issues_deref (l : loc) : issues server (deref l) 0.
Proof. by apply issues_silent. Qed.

Lemma issues_append (l : loc) (x : string) : issues server (append l x) 0.
Proof. intros w. exists []. simpl. rewrite app_nil_r. auto. Qed.

Lemma issues_send (method : string) (a : bool) (params : option payload) :
  issues server (send_request server method a params) 1.
Proof.
  intros w. eexists [(_, _)]. unfold send_request. simpl. auto.
Qed.

Lemma issues_mono {A} (m : M A) (a b : nat) :
  issues server m a -> a <= b -> issues server m b.
Proof.
  intros H Hab w. destruct (H w) as (calls & ? & ? & ?).
  exists calls. repeat split; [done | lia | done].
Qed.

Lemma issues_bind {A B} (m : M A) (k : A -> M B) (a b : nat) :
  issues server m a -> (forall x, issues server (k x) b) ->
  issues server (bind m k) (a + b).
Proof.
  intros Hm Hk w. destruct (Hm w) as (c1 & Hlog1 & Hlen1 & Hans1).
  unfold bind. destruct (m w) as [[x|e] w1]; simpl in *.
  - destruct (Hk x w1) as (c2 & Hlog2 & Hlen2 & Hans2).
    exists (c1 ++ c2)%list. rewrite Hlog2, Hlog1, app_assoc.
    split; [reflexivity|]. split; [rewrite length_app; lia|].
    apply answered_app; [done|].
    by rewrite Hlog1, map_app in Hans2.
  - exists c1. repeat split; [done | lia | done].
Qed.

Lemma issues_try {A} (body handler : M A) (a b : nat) :
  issues server body a -> issues server handler b ->
  issues server (try_except_AppError body handler) (a + b).
Proof.
  intros Hb Hh w. destruct (Hb w) as (c1 & Hlog1 & Hlen1 & Hans1).
  unfold try_except_AppError.
  destruct (body w) as [[x|e] w1]; simpl in *;
    [exists c1; repeat split; [done | lia | done]|].
  destruct e; try (exists c1; repeat split; [done | lia | done]).
  destruct (Hh w1) as (c2 & Hlog2 & Hlen2 & Hans2).
  exists (c1 ++ c2)%list. rewrite Hlog2, Hlog1, app_assoc.
  split; [reflexivity|]. split; [rewrite length_app; lia|].
  apply answered_app; [done|].
  by rewrite Hlog1, map_app in Hans2.
Qed.

Lemma issues_checked (req : request) : issues server (checked server req) 1.
Proof.
  intros w. exists [(req, server (map fst (log w)) req)]. unfold checked.
  split; [|simpl; auto].
  destruct (server _ _) as [p|e];
    [destruct (status_failed p); [destruct (p !! "message")|]|];
    reflexivity.
Qed.

Lemma issues_ext {A} (m m' : M A) (n : nat) :
  (forall w, m w = m' w) -> issues server m' n -> issues server m n.
Proof. intros E H w. rewrite E. apply H. Qed.

(** C7, as the code has it: every public operation sends at most three
    requests in sequence.  Only [add_edit_package] can send more than one
    (the lookup, the creation and the edit); the other five send at most
    one and the branch-name resolver none; and when an operation ends,
    each request it sent is logged with the answer of the service. *)
Theorem requests_per_operation :
  (forall pkg branch, issues server (get_package_info server pkg branch) 1)
  /\ (forall pkg branch master email_log,
        issues server (clone_branch server pkg branch master email_log) 1)
  /\ (forall branch, issues server (mass_branch server branch) 1)
  /\ (forall package collection collection_ver,
        issues server (get_owners server package collection collection_ver) 1)
  /\ (forall username pkg_name collectn_list,
        issues server (remove_user server username pkg_name collectn_list) 1)
  /\ (forall branch, issues server (lift (canonical_branch_name branch)) 0)
  /\ (forall pkg owner description branches cc_list comaintainers groups,
        issues server
          (add_edit_package server py_str dumps pkg owner description
             branches cc_list comaintainers groups) 3).
Proof.
  repeat split.
  - intros pkg branch w.
    destruct (get_package_info_cases pkg branch w) as [[e He]|[req Hreq]].
    + exists []. rewrite He, app_nil_r. simpl. auto with lia.
    + rewrite Hreq. apply issues_checked.
  - intros. apply issues_send.
  - intros. apply issues_send.
  - intros package c cv w.
    destruct (get_owners_checked package c cv w) as [req ->].
    apply issues_checked.
  - intros. apply issues_send.
  - intros. apply issues_lift.
  - intros pkg owner description branches cc co gr.
    unfold add_edit_package.
    apply (issues_bind _ _ 2 1).
    + apply (issues_try _ _ 1 1).
      * apply (issues_bind _ _ 1 0); [|intros; apply issues_ret].
        eapply issues_ext; [apply get_package_info_None|apply issues_checked].
      * destruct (truthy owner);
          [|apply (issues_mono _ 0 1); [apply issues_raise|lia]].
        apply (issues_bind _ _ 0 1).
        { destruct branches as [l|]; simpl; [|apply issues_raise].
          apply (issues_bind _ _ 0 0); [apply issues_deref|].
          intros bs. destruct (bool_decide _);
            [apply issues_ret | apply issues_append]. }
        intros _. apply (issues_bind _ _ 1 0); [apply issues_send|].
        intros response. destruct (status_failed response); [|apply issues_ret].
        apply (issues_bind _ _ 0 0); [apply issues_getitem|].
        intros; apply issues_raise.
    + intros [o d].
      apply (issues_bind _ _ 0 1).
      { destruct branches as [l|]; simpl; [|apply issues_ret].
        apply (issues_bind _ _ 0 0); [apply issues_deref|].
        intros; apply issues_ret. }
      intros data. apply (issues_bind _ _ 1 0); [apply issues_send|].
      intros response. destruct (status_failed response); [|apply issues_ret].
      apply (issues_bind _ _ 0 0); [apply issues_getitem|].
      intros; apply issues_raise.
Qed.

(** ** Adding or editing a package *)

Lemma checked_world (req : request) (w : world) :
  snd (checked server req w)
  = World (log w ++ [(req, server (map fst (log w)) req)])%list (heap w).
Proof.
  unfold checked. destruct (server _ _) as [p|e]; [|reflexivity].
  destruct (status_failed p); [destruct (p !! "message")|]; reflexivity.
Qed.

(** The world after the initial lookup. *)
Lemma lookup_world (pkg : string) (w : world) :
  snd (get_package_info server pkg None w)
  = World (log w ++ [(lookup_request pkg,
                      server (map fst (log w)) (lookup_request pkg))])%list
          (heap w).
Proof. rewrite get_package_info_None. apply checked_world. Qed.

Lemma set_if_lookup_ne (k k' : string) (v : value) (f : value -> value)
    (d : payload) :
  k <> k' -> set_if k v f d !! k' = d !! k'.
Proof.
  intros Hne. unfold set_if. destruct (truthy v); [|reflexivity].
  by rewrite lookup_insert_ne.
Qed.

Lemma set_collections_other_keys (branches : option loc) (d : payload)
    (w : world) :
  exists d', set_collections branches d w = (Return d', w)
             /\ forall k, k <> "collections" -> d' !! k = d !! k.
Proof.
  destruct branches as [l|]; simpl; [|by eexists].
  unfold bind, deref, ret. simpl.
  destruct (heap w l); eexists; (split; [reflexivity|]); [done|].
  intros k Hne. by rewrite lookup_insert_ne.
Qed.

Lemma not_falsy_status (p : payload) :
  ~ has_falsy_status p -> status_failed p = false.
Proof.
  intros Hok. destruct (status_failed p) eqn:E; [|done].
  by apply status_failed_iff in E.
Qed.

(** C5: when the initial lookup fails with an application error and no
    owner was supplied, [add_edit_package] raises the local
    [PackageDBError] saying that the package cannot be created, and the
    lookup is the only request it has sent. *)
Theorem cannot_create_without_owner (pkg : string) (owner description : value)
    (branches : option loc) (cc_list comaintainers groups : value) (w : world) :
  is_AppError (fst (get_package_info server pkg None w)) = true ->
  truthy owner = false ->
  add_edit_package server py_str dumps pkg owner description branches
    cc_list comaintainers groups w
  = (Raise (PackageDBError
              ("Package " +:+ pkg
               +:+ " does not exist and we do not have enough information to create it.")),
     World (log w ++ [(lookup_request pkg,
                       server (map fst (log w)) (lookup_request pkg))])%list
           (heap w)).
Proof.
  intros Hfail Howner. rewrite <- lookup_world.
  unfold add_edit_package, bind at 1, try_except_AppError, bind at 1.
  destruct (get_package_info server pkg None w) as [[p|e] w1];
    [discriminate|].
  destruct e; try discriminate. simpl.
  rewrite Howner. reflexivity.
Qed.

(** C10: on the creation path (the lookup fails with an application
    error and an owner is supplied) the test ['devel' not in branches]
    comes before the creation request, so with [branches] left at [None]
    the call ends in a [TypeError] and the lookup is the only request it
    has sent. *)
Theorem create_needs_branch_list (pkg : string) (owner description : value)
    (cc_list comaintainers groups : value) (w : world) :
  is_AppError (fst (get_package_info server pkg None w)) = true ->
  truthy owner = true ->
  add_edit_package server py_str dumps pkg owner description None
    cc_list comaintainers groups w
  = (Raise TypeError,
     World (log w ++ [(lookup_request pkg,
                       server (map fst (log w)) (lookup_request pkg))])%list
           (heap w)).
Proof.
  intros Hfail Howner. rewrite <- lookup_world.
  unfold add_edit_package, bind at 1, try_except_AppError, bind at 1.
  destruct (get_package_info server pkg None w) as [[p|e] w1];
    [discriminate|].
  destruct e; try discriminate. simpl.
  rewrite Howner. reflexivity.
Qed.

Lemma keeps_heap_ret {A} (a : A) : keeps_heap (ret a).
Proof. done. Qed.

Lemma keeps_heap_raise {A} (e : exn) : keeps_heap (raise (A := A) e).
Proof. done. Qed.

Lemma keeps_heap_deref (l : loc) : keeps_heap (deref l).
Proof. done. Qed.

Lemma keeps_heap_getitem (d : payload) (k : string) : keeps_heap (getitem d k).
Proof. unfold getitem. by destruct (d !! k). Qed.

Lemma keeps_heap_send (method : string) (a : bool) (params : option payload) :
  keeps_heap (send_request server method a params).
Proof. done. Qed.

Lemma heap_bind {A B} (m : M A) (k : A -> M B) (w : world) :
  (forall x, keeps_heap (k x)) ->
  heap (snd (bind m k w)) = heap (snd (m w)).
Proof.
  intros Hk. unfold bind. destruct (m w) as [[x|e] w1]; [apply Hk | done].
Qed.

Lemma keeps_heap_bind {A B} (m : M A) (k : A -> M B) :
  keeps_heap m -> (forall x, keeps_heap (k x)) -> keeps_heap (bind m k).
Proof. intros Hm Hk w. by rewrite heap_bind, Hm. Qed.

Lemma keeps_heap_set_collections (branches : option loc) (d : payload) :
  keeps_heap (set_collections branches d).
Proof.
  destruct branches as [l|]; [|done].
  apply keeps_heap_bind; [apply keeps_heap_deref | intros; apply keeps_heap_ret].
Qed.

(** The status check that follows a dispatcher request. *)
Lemma keeps_heap_status_check {A} (response : payload) (k : value -> M A) (a : A) :
  (forall msg, keeps_heap (k msg)) ->
  keeps_heap (if status_failed response
              then msg <~ getitem response "message" ;; k msg
              else ret a).
Proof.
  intros Hk. destruct (status_failed response); [|apply keeps_heap_ret].
  apply keeps_heap_bind; [apply keeps_heap_getitem | done].
Qed.

(** C9, as the code has it: [add_edit_package] appends "devel" to the
    caller's own list object, with no copy made, on the creation path (the
    lookup fails with an application error and an owner is supplied) when
    the list lacks it; in every other case, and for every other list
    object, the lists hold after the call exactly what they held
    before. *)
Theorem add_edit_package_heap (pkg : string) (owner description : value)
    (branches : option loc) (cc_list comaintainers groups : value) (w : world) :
  heap (snd (add_edit_package server py_str dumps pkg owner description
               branches cc_list comaintainers groups w))
  = match branches with
    | Some l =>
        if is_AppError (fst (get_package_info server pkg None w))
           && truthy owner
           && negb (bool_decide ("devel" ∈ heap w l))
        then <[l := (heap w l ++ ["devel"])%list]> (heap w)
        else heap w
    | None => heap w
    end.
Proof.
  unfold add_edit_package. rewrite heap_bind.
  2:{ intros [o d]. apply keeps_heap_bind; [apply keeps_heap_set_collections|].
      intros data. apply keeps_heap_bind; [apply keeps_heap_send|].
      intros response. apply keeps_heap_status_check.
      intros; apply keeps_heap_raise. }
  pose proof (lookup_world pkg w) as Hw1.
  unfold try_except_AppError, bind at 1.
  destruct (get_package_info server pkg None w) as [[p|e] w1];
    simpl in Hw1; subst w1.
  { simpl. by destruct branches. }
  destruct e; try (simpl; by destruct branches).
  cbn [fst is_AppError andb].
  destruct (truthy owner); [|simpl; by destruct branches].
  rewrite heap_bind.
  2:{ intros _. apply keeps_heap_bind; [apply keeps_heap_send|].
      intros response. apply keeps_heap_status_check.
      intros; apply keeps_heap_raise. }
  destruct branches as [l|]; [|reflexivity].
  unfold ensure_devel, bind, deref. cbn [heap log andb].
  by destruct (bool_decide _).
Qed.

(** C4: when the initial lookup fails with an application error, an
    owner is supplied and the creation request succeeds, the edit request
    is sent next, whatever further edits were asked for, and its
    parameters hold neither [owner] nor [summary]. *)
Theorem created_then_edited (pkg : string) (owner description : value)
    (l : loc) (cc_list comaintainers groups : value) (w : world)
    (resp : payload) :
  is_AppError (fst (get_package_info server pkg None w)) = true ->
  truthy owner = true ->
  server (map fst (log w) ++ [lookup_request pkg])%list
    (create_request pkg owner description) = Return resp ->
  ~ has_falsy_status resp ->
  exists data,
    map fst (log (snd (add_edit_package server py_str dumps pkg owner
                         description (Some l) cc_list comaintainers groups w)))
    = (map fst (log w) ++ [lookup_request pkg;
                           create_request pkg owner description;
                           edit_request pkg data])%list
    /\ data !! "owner" = None /\ data !! "summary" = None.
Proof.
  intros Hfail Howner Hresp Hsf%not_falsy_status.
  pose proof (lookup_world pkg w) as Hw1.
  unfold add_edit_package, bind at 1, try_except_AppError, bind at 1.
  destruct (get_package_info server pkg None w) as [[p|e] w1];
    [discriminate|].
  destruct e; try discriminate. simpl in Hw1. subst w1. clear Hfail.
  generalize (server (map fst (log w)) (lookup_request pkg)). intros out1.
  rewrite Howner.
  unfold bind at 1. unfold ensure_devel, bind at 1, deref. cbn [heap log].
  destruct (bool_decide _); [unfold ret at 1 | unfold append at 1];
    unfold bind at 1; unfold send_request at 1; cbn [heap log];
    rewrite map_app; cbn [map fst]; fold (create_request pkg owner description);
    rewrite Hresp, Hsf; clear Hresp; unfold ret at 1;
    change (set_if "summary" VNone id (set_if "owner" VNone id ∅))
      with (∅ : payload);
    match goal with
    | |- context [bind (set_collections ?b ?d) _ ?w'] =>
        destruct (set_collections_other_keys b d w') as (d' & Hd' & Hkeys)
    end;
    exists d'; unfold bind at 1; rewrite Hd';
    (split; [|by rewrite !Hkeys, !set_if_lookup_ne by done]);
    unfold bind at 1, send_request at 1; cbn [heap log];
    (destruct (server _ _) as [r|e];
     [destruct (status_failed r);
      [unfold bind, getitem; destruct (r !! "message")|]|]);
    simpl; rewrite !map_app, <- !app_assoc; reflexivity.
Qed.

(** ** Server-reported errors *)

(** C1, as the code has it: when [get_package_info] or [get_owners]
    receives a payload with a falsy [status] and a [message], it raises
    the application error that carries this message; when the payload has
    no [status] or a truthy one, it returns the payload unchanged.  (With
    a falsy [status] and no [message], reading the message raises
    [KeyError].) *)
Theorem lookups_check_status (op : M payload) (pkg package : string)
    (branch collection collection_ver : option string)
    (w : world) (p : payload) :
  op = get_package_info server pkg branch
  \/ op = get_owners server package collection collection_ver ->
  received op w p ->
  (has_falsy_status p -> forall m, p !! "message" = Some m ->
     fst (op w) = Raise (AppError "PackageDBError" m VNone))
  /\ (has_falsy_status p -> p !! "message" = None ->
       fst (op w) = Raise (KeyError "message"))
  /\ (~ has_falsy_status p -> fst (op w) = Return p).
Proof.
  intros Hop Hrecv.
  assert (exists req, op w = checked server req w) as [req Hreq].
  { destruct Hop as [-> | ->]; [|apply get_owners_checked].
    destruct (get_package_info_cases pkg branch w) as [[e He]|Hc]; [|done].
    destruct Hrecv as (earlier & r & Hlog). rewrite He in Hlog.
    by apply log_no_growth in Hlog. }
  assert (received (checked server req) w p) as Hrecv'.
  { destruct Hrecv as (earlier & r & Hlog). exists earlier, r. by rewrite <- Hreq. }
  destruct (checked_received req w p Hrecv') as [Hbad Hgood].
  rewrite Hreq. repeat split.
  - intros Hf m Hm. rewrite (Hbad Hf), Hm. reflexivity.
  - intros Hf Hm. rewrite (Hbad Hf), Hm. reflexivity.
  - exact Hgood.
Qed.

(** ** Mass branching *)

(** C3, as the code has it: [mass_branch] makes no check of its own.  Its
    outcome is the outcome of its one authenticated request: a payload
    that comes back is returned as it is, whatever its [status], and an
    error raised by the base client, such as an [AppError] with its
    extras, is raised unchanged. *)
Theorem mass_branch_passes_through (branch : string) (w : world) :
  let reply := server (map fst (log w)) (mass_branch_request branch) in
  fst (mass_branch server branch w) = reply
  /\ log (snd (mass_branch server branch w))
     = (log w ++ [(mass_branch_request branch, reply)])%list
  /\ (forall name message extras,
        reply = Raise (AppError name message extras) ->
        fst (mass_branch server branch w) = Raise (AppError name message extras))
  /\ (forall p, reply = Return p -> fst (mass_branch server branch w) = Return p).
Proof. repeat split; auto. Qed.

(** ** Removing a user *)

(** C8, as the code has it: [remove_user] sends one authenticated request
    to [/packages/dispatcher/remove_user] with [username] and [pkg_name];
    [collectn_list] is in the parameters, verbatim, exactly when the
    argument is truthy (neither [None] nor empty); and what the request
    gives is handed back with no look at [status]. *)
Theorem remove_user_request (username pkg_name : string)
    (collectn_list : value) (w : world) :
  exists params : payload,
    let req := Request "/packages/dispatcher/remove_user" true (Some params) in
    let reply := server (map fst (log w)) req in
    remove_user server username pkg_name collectn_list w
      = (reply, World (log w ++ [(req, reply)])%list (heap w))
    /\ params !! "username" = Some (VStr username)
    /\ params !! "pkg_name" = Some (VStr pkg_name)
    /\ params !! "collectn_list"
         = (if truthy collectn_list then Some collectn_list else None)
    /\ dom params ⊆ ({["username"; "pkg_name"; "collectn_list"]} : gset string).
Proof.
  unfold remove_user, send_request.
  destruct (truthy collectn_list); eexists;
    (split; [reflexivity|]); (split; [reflexivity|]);
    (split; [reflexivity|]); (split; [reflexivity|]);
    rewrite !dom_insert_L, dom_empty_L; intros k;
    rewrite !elem_of_union, !elem_of_singleton, elem_of_empty; tauto.
Qed.

End ClientProperties.

(** C1 as stated fails on a payload whose falsy [status] comes without a
    [message]: no application error is raised, reading the message raises
    [KeyError]. *)
Lemma status_without_message :
  has_falsy_status Demo.status_only
  /\ received (get_package_info (Demo.always Demo.status_only) "bash" None)
       Demo.w0 Demo.status_only
  /\ fst (get_package_info (Demo.always Demo.status_only) "bash" None Demo.w0)
     = Raise (KeyError "message")
  /\ received (get_owners (Demo.always Demo.status_only) "bash" None None)
       Demo.w0 Demo.status_only
  /\ fst (get_owners (Demo.always Demo.status_only) "bash" None None Demo.w0)
     = Raise (KeyError "message").
Proof.
  split; [exists (VBool false); split; reflexivity|].
  split; [exists [], (lookup_request "bash"); reflexivity|].
  split; [reflexivity|].
  split; [exists [], (lookup_request "bash"); reflexivity|].
  reflexivity.
Qed.

Lemma lookups_check_status_witness :
  has_falsy_status Demo.no_such_package
  /\ fst (get_package_info (Demo.always Demo.no_such_package) "bash" None Demo.w0)
     = Raise (AppError "PackageDBError" (VStr "no such package") VNone)
  /\ fst (get_package_info (Demo.always Demo.bash_info) "bash" None Demo.w0)
     = Return Demo.bash_info.
Proof.
  split; [exists (VBool false); split; reflexivity|].
  split.
  - apply (lookups_check_status (Demo.always Demo.no_such_package)
             (get_package_info (Demo.always Demo.no_such_package) "bash" None)
             "bash" "bash" None None None Demo.w0 Demo.no_such_package).
    + left; reflexivity.
    + exists [], (lookup_request "bash"); reflexivity.
    + exists (VBool false); split; reflexivity.
    + reflexivity.
  - apply (lookups_check_status (Demo.always Demo.bash_info)
             (get_package_info (Demo.always Demo.bash_info) "bash" None)
             "bash" "bash" None None None Demo.w0 Demo.bash_info).
    + left; reflexivity.
    + exists [], (lookup_request "bash"); reflexivity.
    + intros (s & Hs & Ht). vm_compute in Hs. injection Hs as <-. discriminate.
Defined.

(** C3 as stated fails: a payload with a falsy [status] is returned, not
    raised. *)
Lemma mass_branch_returns_failure_payload :
  has_falsy_status Demo.partial_branch
  /\ fst (mass_branch (Demo.always Demo.partial_branch) "F-20" Demo.w0)
     = Return Demo.partial_branch
  /\ is_AppError (fst (mass_branch (Demo.always Demo.partial_branch) "F-20" Demo.w0))
     = false.
Proof.
  split; [exists (VBool false); split; reflexivity|].
  split; reflexivity.
Qed.

Lemma mass_branch_passes_through_witness :
  fst (mass_branch Demo.raising_server "F-20" Demo.w0)
  = Raise (AppError "MassBranchError" (VStr "partial")
             (VList [VStr "pkgA"; VStr "pkgB"])).
Proof.
  apply (proj1 (proj2 (proj2
           (mass_branch_passes_through Demo.raising_server "F-20" Demo.w0)))).
  reflexivity.
Defined.

(** C8 as stated fails on an empty collection list: the list is given, and
    the request still goes out without [collectn_list]. *)
Lemma remove_user_empty_list :
  exists params : payload,
    map fst (log (snd (remove_user (Demo.always ∅) "bob" "foo" (VList []) Demo.w0)))
    = [Request "/packages/dispatcher/remove_user" true (Some params)]
    /\ params !! "collectn_list" = None
    /\ VList [] <> VNone.
Proof. eexists. split; [reflexivity|]. split; [reflexivity|discriminate]. Qed.

Example remove_user_with_list :
  exists params : payload,
    map fst (log (snd (remove_user (Demo.always ∅) "bob" "foo"
                         (VList [VStr "F-10"]) Demo.w0)))
    = [Request "/packages/dispatcher/remove_user" true (Some params)]
    /\ params !! "collectn_list" = Some (VList [VStr "F-10"]).
Proof. eexists. split; reflexivity. Qed.

(** ** [add_edit_package] on a service that does not know the package *)

Lemma cannot_create_without_owner_witness :
  is_AppError (fst (get_package_info Demo.absent_server "nopkg" None Demo.w0)) = true
  /\ truthy VNone = false
  /\ add_edit_package Demo.absent_server Demo.str_of Demo.str_of "nopkg"
       VNone VNone None VNone VNone VNone Demo.w0
     = (Raise (PackageDBError
                 "Package nopkg does not exist and we do not have enough information to create it."),
        World [(lookup_request "nopkg", Return Demo.no_such_package)] (fun _ => [])).
Proof.
  split; [reflexivity|]. split; [reflexivity|].
  apply (cannot_create_without_owner Demo.absent_server Demo.str_of Demo.str_of
           "nopkg" VNone VNone None VNone VNone VNone Demo.w0);
    reflexivity.
Defined.

Lemma create_needs_branch_list_witness :
  is_AppError (fst (get_package_info Demo.absent_server "newpkg" None Demo.w0)) = true
  /\ truthy (VStr "alice") = true
  /\ add_edit_package Demo.absent_server Demo.str_of Demo.str_of "newpkg"
       (VStr "alice") VNone None VNone VNone VNone Demo.w0
     = (Raise TypeError,
        World [(lookup_request "newpkg", Return Demo.no_such_package)] (fun _ => [])).
Proof.
  split; [reflexivity|]. split; [reflexivity|].
  apply (create_needs_branch_list Demo.absent_server Demo.str_of Demo.str_of
           "newpkg" (VStr "alice") VNone VNone VNone VNone Demo.w0);
    reflexivity.
Defined.

Lemma created_then_edited_witness :
  is_AppError (fst (get_package_info Demo.absent_server "newpkg" None Demo.w2)) = true
  /\ truthy (VStr "alice") = true
  /\ ~ has_falsy_status ∅
  /\ exists data,
       map fst (log (snd (add_edit_package Demo.absent_server Demo.str_of
                            Demo.str_of "newpkg" (VStr "alice") VNone (Some 7)
                            VNone VNone VNone Demo.w2)))
       = [lookup_request "newpkg";
          create_request "newpkg" (VStr "alice") VNone;
          edit_request "newpkg" data]
       /\ data !! "owner" = None /\ data !! "summary" = None.
Proof.
  assert (~ has_falsy_status ∅) as Hok.
  { intros (s & Hs & _). rewrite lookup_empty in Hs. discriminate. }
  split; [reflexivity|]. split; [reflexivity|]. split; [exact Hok|].
  apply (created_then_edited Demo.absent_server Demo.str_of Demo.str_of
           "newpkg" (VStr "alice") VNone 7 VNone VNone VNone Demo.w2 ∅);
    [reflexivity | reflexivity | reflexivity | exact Hok].
Defined.

Example newpkg_requests :
  map fst (log (snd (add_edit_package Demo.absent_server Demo.str_of
                       Demo.str_of "newpkg" (VStr "alice") VNone (Some 7)
                       VNone VNone VNone Demo.w2)))
  = [lookup_request "newpkg";
     create_request "newpkg" (VStr "alice") VNone;
     edit_request "newpkg" (<["collections" := VList [VStr "devel"]]> ∅)].
Proof. reflexivity. Qed.

(** C7 as stated fails: creating a package takes three requests, not
    two. *)
Lemma add_edit_package_three_requests :
  length (log (snd (add_edit_package Demo.absent_server Demo.str_of
                      Demo.str_of "newpkg" (VStr "alice") VNone (Some 7)
                      VNone VNone VNone Demo.w2))) = 3
  /\ ~ issues Demo.absent_server
        (add_edit_package Demo.absent_server Demo.str_of Demo.str_of "newpkg"
           (VStr "alice") VNone (Some 7) VNone VNone VNone) 2.
Proof.
  assert (length (log (snd (add_edit_package Demo.absent_server Demo.str_of
                      Demo.str_of "newpkg" (VStr "alice") VNone (Some 7)
                      VNone VNone VNone Demo.w2))) = 3) as Hlen
    by reflexivity.
  split; [exact Hlen|].
  intros H. destruct (H Demo.w2) as (calls & Hlog & Hcalls & _).
  rewrite Hlog in Hlen. simpl in Hlen. lia.
Qed.

(** C9 as stated fails: the caller's list has gained "devel". *)
Lemma add_edit_package_appends_to_caller_list :
  heap Demo.w1 7 = ["F-10"]
  /\ heap (snd (add_edit_package Demo.absent_server Demo.str_of Demo.str_of
                  "newpkg" (VStr "alice") VNone (Some 7) VNone VNone VNone
                  Demo.w1)) 7
     = ["F-10"; "devel"].
Proof. split; reflexivity. Qed.

(** * Further properties of the code *)

(** ** Splitting, read backwards *)

Section SplitInversion.

Variable sep : ascii.

Lemma split_one_inv s b :
  split sep s = [b] -> s = b /\ occurs sep b = false.
Proof.
  revert b. induction s as [|c s IH]; simpl; intros b.
  - by intros [= <-].
  - destruct (Ascii.eqb c sep) eqn:Hc.
    + intros [= <- H]. by apply split_nonempty in H.
    + destruct (split sep s) as [|h t] eqn:E; [by apply split_nonempty in E|].
      intros [= <- ->]. destruct (IH h eq_refl) as [-> Hh].
      simpl. by rewrite Hc.
Qed.

Lemma split_two_inv s a b :
  split sep s = [a; b] ->
  s = a +:+ String sep b /\ occurs sep a = false /\ occurs sep b = false.
Proof.
  revert a. induction s as [|c s IH]; simpl; intros a; [discriminate|].
  destruct (Ascii.eqb c sep) eqn:Hc.
  - intros [= <- H]. apply Ascii.eqb_eq in Hc as ->.
    by destruct (split_one_inv _ _ H) as [-> ?].
  - destruct (split sep s) as [|h t] eqn:E; [discriminate|].
    intros [= <- ->]. destruct (IH h eq_refl) as (-> & Hh & Hb).
    simpl. by rewrite Hc.
Qed.

End SplitInversion.

(** ** The branch-name resolver, read backwards *)

Lemma canonical_branch_name_inv (branch c v : string) :
  canonical_branch_name branch = Return (c, v) ->
  (branch = "devel" /\ c = "Fedora" /\ v = "devel")
  \/ (exists P, branch = P +:+ "-" +:+ v
                /\ COLLECTIONMAP !! P = Some c
                /\ occurs dash v = false).
Proof.
  unfold canonical_branch_name, canonical_branch_name_in.
  case_bool_decide as Hd; [intros [= <- <-]; by left|].
  destruct (split dash branch) as [|a [|b [|? ?]]] eqn:E; try discriminate.
  simpl. destruct (COLLECTIONMAP !! a) as [c'|] eqn:Ha; [|discriminate].
  intros [= <- <-]. right. exists a.
  by destruct (split_two_inv dash _ _ _ E) as (-> & _ & ?).
Qed.

(** A token resolves exactly when it is "devel" or "P-V" with [P] a key of
    the collection map and no "-" in [V]; the pair returned is then
    ("Fedora", "devel"), respectively [(COLLECTIONMAP[P], V)]. *)
Theorem canonical_branch_name_returns (branch c v : string) :
  canonical_branch_name branch = Return (c, v)
  <-> (branch = "devel" /\ c = "Fedora" /\ v = "devel")
      \/ (exists P, branch = P +:+ "-" +:+ v
                    /\ COLLECTIONMAP !! P = Some c
                    /\ occurs dash v = false).
Proof.
  split; [apply canonical_branch_name_inv|].
  intros [(-> & -> & ->) | (P & -> & HP & Hv)]; [reflexivity|].
  unfold canonical_branch_name.
  rewrite canonical_branch_name_split by eauto using COLLECTIONMAP_key_dashless.
  by rewrite HP.
Qed.

(** The collection named by a resolved token is one of the four
    collections of the map, and the version holds no "-". *)
Theorem canonical_branch_name_range (branch c v : string) :
  canonical_branch_name branch = Return (c, v) ->
  c ∈ ["Fedora"; "Fedora EPEL"; "Fedora OLPC"; "Red Hat Linux"]
  /\ occurs dash v = false.
Proof.
  intros [(_ & -> & ->) | (P & _ & HP & Hv)]%canonical_branch_name_inv.
  - split; [set_solver|reflexivity].
  - split; [|done]. unfold COLLECTIONMAP in HP.
    repeat (apply lookup_insert_Some in HP as [[_ <-]|[_ HP]]; [set_solver|]).
    by rewrite lookup_empty in HP.
Qed.

Lemma canonical_branch_name_range_witness :
  canonical_branch_name "EL-5" = Return ("Fedora EPEL", "5")
  /\ "Fedora EPEL" ∈ ["Fedora"; "Fedora EPEL"; "Fedora OLPC"; "Red Hat Linux"]
  /\ occurs dash "5" = false.
Proof.
  split; [reflexivity|].
  apply (canonical_branch_name_range "EL-5" "Fedora EPEL" "5"). reflexivity.
Defined.

(** The abbreviations F and FC are interchangeable, and so are EL and
    EPEL: for every rest of the token, also one that makes both fail. *)
Theorem canonical_branch_name_aliases (rest : string) :
  canonical_branch_name ("F-" +:+ rest) = canonical_branch_name ("FC-" +:+ rest)
  /\ canonical_branch_name ("EL-" +:+ rest)
     = canonical_branch_name ("EPEL-" +:+ rest).
Proof.
  unfold canonical_branch_name, canonical_branch_name_in.
  change ("F-" +:+ rest) with ("F" +:+ String dash rest).
  change ("FC-" +:+ rest) with ("FC" +:+ String dash rest).
  change ("EL-" +:+ rest) with ("EL" +:+ String dash rest).
  change ("EPEL-" +:+ rest) with ("EPEL" +:+ String dash rest).
  rewrite !split_at_sep by reflexivity.
  rewrite !bool_decide_eq_false_2 by apply dashed_not_devel.
  destruct (split dash rest) as [|x [|y t]]; split; vm_compute; reflexivity.
Qed.

(** ** The two steps of [add_edit_package] *)

Lemma append_empty_r (s : string) : s +:+ "" = s.
Proof.
  induction s as [|c s IH]; [reflexivity|].
  change (String c s +:+ "") with (String c (s +:+ "")). by rewrite IH.
Qed.

Lemma edit_error_message (pkg msg : string) :
  interpolate (gettext "Unable to save all information for %(pkg)s: %(msg)s")
    [("pkg", pkg); ("msg", msg)]
  = "Unable to save all information for " +:+ pkg +:+ ": " +:+ msg.
Proof.
  change (interpolate _ _)
    with ("Unable to save all information for " +:+ pkg +:+ ": "
          +:+ (msg +:+ "")).
  by rewrite append_empty_r.
Qed.

Lemma create_error_message (pkg msg : string) :
  interpolate (gettext "PackageDB returned an error creating %(pkg)s: %(msg)s")
    [("pkg", pkg); ("msg", msg)]
  = "PackageDB returned an error creating " +:+ pkg +:+ ": " +:+ msg.
Proof.
  change (interpolate _ _)
    with ("PackageDB returned an error creating " +:+ pkg +:+ ": "
          +:+ (msg +:+ "")).
  by rewrite append_empty_r.
Qed.

Section StepProperties.

Variable server : list request -> request -> result payload.
Variable py_str : value -> string.
Variable dumps : value -> string.

Lemma add_edit_package_steps (pkg : string) (owner description : value)
    (branches : option loc) (cc_list comaintainers groups : value) (w : world) :
  add_edit_package server py_str dumps pkg owner description branches
    cc_list comaintainers groups w
  = match create_step server py_str pkg owner description branches w with
    | (Return (o, d), w1) =>
        edit_step server py_str dumps pkg o d branches
          cc_list comaintainers groups w1
    | (Raise e, w1) => (Raise e, w1)
    end.
Proof.
  unfold add_edit_package, bind at 1.
  change (try_except_AppError _ _ w)
    with (create_step server py_str pkg owner description branches w).
  by destruct (create_step _ _ _ _ _ _ w) as [[[o d]|e] w1].
Qed.

Lemma edit_step_run (pkg : string) (owner description : value)
    (branches : option loc) (cc_list comaintainers groups : value) (w : world) :
  let req := edit_request pkg
               (edit_data dumps owner description branches
                  cc_list comaintainers groups (heap w)) in
  let reply := server (map fst (log w)) req in
  edit_step server py_str dumps pkg owner description branches
    cc_list comaintainers groups w
  = (dispatcher_outcome py_str "Unable to save all information for " pkg tt reply,
     World (log w ++ [(req, reply)])%list (heap w)).
Proof.
  unfold edit_step, edit_data, edit_request, dispatcher_outcome.
  destruct branches as [l|]; simpl.
  - unfold bind at 1. unfold bind at 1. unfold deref at 1, ret at 1.
    unfold bind at 1, send_request at 1.
    destruct (heap w l) as [|b bs] eqn:E; cbv zeta;
      (destruct (server _ _) as [r|e]; [|reflexivity]);
      (destruct (status_failed r); [|reflexivity]);
      unfold bind, getitem, ret, raise; destruct (r !! "message");
      cbv beta iota; rewrite ?edit_error_message; reflexivity.
  - unfold bind at 1, ret at 1. unfold bind at 1, send_request at 1. cbv zeta.
    destruct (server _ _) as [r|e]; [|reflexivity].
    destruct (status_failed r); [|reflexivity].
    unfold bind, getitem, ret, raise. destruct (r !! "message");
      cbv beta iota; rewrite ?edit_error_message; reflexivity.
Qed.

(** The lookup found the package: nothing is created. *)
Lemma create_step_found (pkg : string) (owner description : value)
    (branches : option loc) (w : world) (p : payload) :
  fst (get_package_info server pkg None w) = Return p ->
  create_step server py_str pkg owner description branches w
  = (Return (owner, description),
     World (log w ++ [(lookup_request pkg, Return p)])%list (heap w))
  /\ server (map fst (log w)) (lookup_request pkg) = Return p.
Proof.
  intros Hp. pose proof (lookup_world server pkg w) as Hw1.
  assert (server (map fst (log w)) (lookup_request pkg) = Return p) as Hs.
  { rewrite get_package_info_None in Hp. unfold checked in Hp.
    destruct (server _ _) as [q|e]; [|done].
    destruct (status_failed q); [by destruct (q !! "message")|].
    simpl in Hp. congruence. }
  split; [|done]. rewrite Hs in Hw1.
  unfold create_step, try_except_AppError, bind.
  destruct (get_package_info server pkg None w) as [[q|e] w1];
    simpl in *; congruence.
Qed.

(** The lookup ended in an error that is no [AppError]: it is passed on. *)
Lemma create_step_error (pkg : string) (owner description : value)
    (branches : option loc) (w : world) (e : exn) :
  fst (get_package_info server pkg None w) = Raise e ->
  is_AppError (Raise (A := unit) e) = false ->
  create_step server py_str pkg owner description branches w
  = (Raise e,
     World (log w ++ [(lookup_request pkg,
                       server (map fst (log w)) (lookup_request pkg))])%list
           (heap w)).
Proof.
  intros He Hno. rewrite <- lookup_world.
  unfold create_step, try_except_AppError, bind.
  destruct (get_package_info server pkg None w) as [[q|e'] w1];
    simpl in *; [discriminate|].
  injection He as ->. by destruct e.
Qed.

(** The lookup failed, an owner and a list of branches are there: the
    creation request goes out and its answer decides. *)
Lemma create_step_create (pkg : string) (owner description : value)
    (l : loc) (w : world) :
  is_AppError (fst (get_package_info server pkg None w)) = true ->
  truthy owner = true ->
  let creq := create_request pkg owner description in
  let reply := server (map fst (log w) ++ [lookup_request pkg])%list creq in
  create_step server py_str pkg owner description (Some l) w
  = (dispatcher_outcome py_str "PackageDB returned an error creating " pkg
       (VNone, VNone) reply,
     World (log w ++ [(lookup_request pkg,
                       server (map fst (log w)) (lookup_request pkg));
                      (creq, reply)])%list
           (with_devel l (heap w))).
Proof.
  intros Hfail Howner. pose proof (lookup_world server pkg w) as Hw1.
  unfold create_step, try_except_AppError, bind at 1.
  destruct (get_package_info server pkg None w) as [[p|e] w1];
    [discriminate|].
  destruct e; try discriminate. simpl in Hw1. subst w1. clear Hfail.
  generalize (server (map fst (log w)) (lookup_request pkg)). intros out1.
  rewrite Howner. unfold with_devel, dispatcher_outcome, create_request.
  unfold bind at 1. unfold ensure_devel, bind at 1, deref. cbn [heap log].
  destruct (bool_decide _); [unfold ret at 1 | unfold append at 1];
    unfold bind at 1; unfold send_request at 1; cbn [heap log];
    rewrite map_app; cbn [map fst]; cbv zeta;
    rewrite <- !app_assoc; cbn [app];
    (destruct (server _ _) as [r|e]; [|reflexivity]);
    (destruct (status_failed r); [|reflexivity]);
    unfold bind, getitem, ret, raise; destruct (r !! "message");
    cbv beta iota; rewrite ?create_error_message; reflexivity.
Qed.

Lemma with_devel_elem (l : loc) (h : loc -> list string) :
  "devel" ∈ with_devel l h l.
Proof.
  unfold with_devel. case_bool_decide as H; [done|].
  rewrite fn_lookup_insert. set_solver.
Qed.

Lemma with_devel_at (l : loc) (h : loc -> list string) :
  with_devel l h l = h l \/ with_devel l h l = (h l ++ ["devel"])%list.
Proof.
  unfold with_devel. case_bool_decide; [by left|].
  right. by rewrite fn_lookup_insert.
Qed.

Lemma with_devel_other (l l' : loc) (h : loc -> list string) :
  l <> l' -> with_devel l h l' = h l'.
Proof.
  intros Hne. unfold with_devel. case_bool_decide; [done|].
  by rewrite fn_lookup_insert_ne.
Qed.

Lemma with_devel_present (l : loc) (h : loc -> list string) :
  "devel" ∈ h l -> with_devel l h = h.
Proof. intros H. unfold with_devel. by rewrite bool_decide_eq_true_2. Qed.

Lemma set_if_lookup_eq (k : string) (v : value) (f : value -> value)
    (d : payload) :
  set_if k v f d !! k = if truthy v then Some (f v) else d !! k.
Proof.
  unfold set_if. destruct (truthy v); [|reflexivity].
  by rewrite lookup_insert_eq.
Qed.

Lemma edit_data_lookups (owner description : value) (branches : option loc)
    (cc_list comaintainers groups : value) (h : loc -> list string) :
  let data := edit_data dumps owner description branches
                cc_list comaintainers groups h in
  data !! "owner" = (if truthy owner then Some owner else None)
  /\ data !! "summary" = (if truthy description then Some description else None)
  /\ data !! "ccList"
     = (if truthy cc_list then Some (VStr (dumps cc_list)) else None)
  /\ data !! "comaintList"
     = (if truthy comaintainers then Some (VStr (dumps comaintainers)) else None)
  /\ data !! "groups"
     = (if truthy groups then Some (VStr (dumps groups)) else None)
  /\ data !! "collections"
     = match branches with
       | Some l => match h l with
                   | [] => None
                   | _ :: _ => Some (VList (VStr <$> h l))
                   end
       | None => None
       end.
Proof.
  unfold edit_data. cbv zeta.
  match goal with
  | |- context [match branches with None => ?b | _ => _ end] => set (base := b)
  end.
  assert (forall k, k <> "collections" ->
            match branches with
            | None => base
            | Some l => match h l with
                        | [] => base
                        | _ :: _ => <["collections" := VList (VStr <$> h l)]> base
                        end
            end !! k = base !! k) as Hk.
  { intros k Hne. destruct branches as [l|]; [destruct (h l)|]; try done.
    by rewrite lookup_insert_ne. }
  repeat split; rewrite ?Hk by done; unfold base;
    repeat first [rewrite set_if_lookup_ne by done | rewrite set_if_lookup_eq];
    rewrite ?lookup_empty; try done.
  destruct branches as [l|]; [destruct (h l)|];
    rewrite ?lookup_insert_eq;
    repeat (rewrite set_if_lookup_ne by done); by rewrite ?lookup_empty.
Qed.

(** When the lookup finds the package, [add_edit_package] creates
    nothing: it sends the lookup and the edit request, leaves every list
    object alone, and the answer to the edit request decides how it ends:
    it returns on a payload without falsy [status], raises the
    application error "Unable to save all information for <pkg>: <message>"
    on a refusal, and passes on what the base client raises. *)
Theorem existing_package_outcome (pkg : string) (owner description : value)
    (branches : option loc) (cc_list comaintainers groups : value)
    (w : world) (p : payload) :
  fst (get_package_info server pkg None w) = Return p ->
  exists data reply,
    add_edit_package server py_str dumps pkg owner description branches
      cc_list comaintainers groups w
    = (dispatcher_outcome py_str "Unable to save all information for " pkg tt
         reply,
       World (log w ++ [(lookup_request pkg, Return p);
                        (edit_request pkg data, reply)])%list (heap w))
    /\ reply = server (map fst (log w) ++ [lookup_request pkg])%list
                 (edit_request pkg data).
Proof.
  intros Hp. rewrite add_edit_package_steps.
  destruct (create_step_found pkg owner description branches w p Hp) as [-> _].
  rewrite edit_step_run. cbn [log heap].
  rewrite map_app, <- app_assoc. cbn [map fst app].
  eexists _, _. split; reflexivity.
Qed.

(** When the lookup finds the package, the edit request carries [owner],
    [summary], [ccList], [comaintList] and [groups] exactly for the
    arguments that are truthy (the three lists as JSON text), and
    [collections] exactly when [branches] is a list that is not empty. *)
Theorem existing_package_edit_request (pkg : string) (owner description : value)
    (branches : option loc) (cc_list comaintainers groups : value)
    (w : world) (p : payload) :
  fst (get_package_info server pkg None w) = Return p ->
  exists data : payload,
    map fst (log (snd (add_edit_package server py_str dumps pkg owner
                         description branches cc_list comaintainers groups w)))
    = (map fst (log w) ++ [lookup_request pkg; edit_request pkg data])%list
    /\ data !! "owner" = (if truthy owner then Some owner else None)
    /\ data !! "summary"
       = (if truthy description then Some description else None)
    /\ data !! "ccList"
       = (if truthy cc_list then Some (VStr (dumps cc_list)) else None)
    /\ data !! "comaintList"
       = (if truthy comaintainers then Some (VStr (dumps comaintainers))
          else None)
    /\ data !! "groups"
       = (if truthy groups then Some (VStr (dumps groups)) else None)
    /\ data !! "collections"
       = match branches with
         | Some l => match heap w l with
                     | [] => None
                     | _ :: _ => Some (VList (VStr <$> heap w l))
                     end
         | None => None
         end.
Proof.
  intros Hp. rewrite add_edit_package_steps.
  destruct (create_step_found pkg owner description branches w p Hp) as [-> _].
  rewrite edit_step_run. cbn [log heap snd].
  eexists. split; [|apply edit_data_lookups].
  rewrite !map_app, <- app_assoc. reflexivity.
Qed.

(** When the service refuses the creation request, [add_edit_package]
    raises the application error "PackageDB returned an error creating
    <pkg>: <message>" and sends no edit request; by then "devel" is in the
    caller's list. *)
Theorem creation_refused (pkg : string) (owner description : value)
    (l : loc) (cc_list comaintainers groups : value) (w : world)
    (r : payload) (m : value) :
  is_AppError (fst (get_package_info server pkg None w)) = true ->
  truthy owner = true ->
  server (map fst (log w) ++ [lookup_request pkg])%list
    (create_request pkg owner description) = Return r ->
  has_falsy_status r ->
  r !! "message" = Some m ->
  add_edit_package server py_str dumps pkg owner description (Some l)
    cc_list comaintainers groups w
  = (Raise (AppError "PackageDBError"
              (VStr ("PackageDB returned an error creating " +:+ pkg
                     +:+ ": " +:+ py_str m)) VNone),
     World (log w ++ [(lookup_request pkg,
                       server (map fst (log w)) (lookup_request pkg));
                      (create_request pkg owner description, Return r)])%list
           (with_devel l (heap w)))
  /\ "devel" ∈ with_devel l (heap w) l.
Proof.
  intros Hfail Howner Hr Hbad%status_failed_iff Hm.
  split; [|apply with_devel_elem].
  rewrite add_edit_package_steps, create_step_create by done.
  rewrite Hr. unfold dispatcher_outcome. by rewrite Hbad, Hm.
Qed.

(** When the package is created, the edit request that follows carries
    the caller's list, read after "devel" was put in, as [collections]:
    a new package is always edited on its devel branch. *)
Theorem created_package_gets_devel (pkg : string) (owner description : value)
    (l : loc) (cc_list comaintainers groups : value) (w : world)
    (r : payload) :
  is_AppError (fst (get_package_info server pkg None w)) = true ->
  truthy owner = true ->
  server (map fst (log w) ++ [lookup_request pkg])%list
    (create_request pkg owner description) = Return r ->
  ~ has_falsy_status r ->
  let w' := snd (add_edit_package server py_str dumps pkg owner description
                   (Some l) cc_list comaintainers groups w) in
  exists data : payload,
    map fst (log w')
    = (map fst (log w) ++ [lookup_request pkg;
                           create_request pkg owner description;
                           edit_request pkg data])%list
    /\ data !! "collections" = Some (VList (VStr <$> heap w' l))
    /\ "devel" ∈ heap w' l.
Proof.
  intros Hfail Howner Hr Hok%not_falsy_status. cbv zeta.
  rewrite add_edit_package_steps, create_step_create by done.
  rewrite Hr. unfold dispatcher_outcome. rewrite Hok.
  rewrite edit_step_run. cbn [log heap snd].
  eexists. split; [rewrite !map_app, <- app_assoc; reflexivity|].
  split; [|apply with_devel_elem].
  match goal with
  | |- edit_data ?f ?o ?d ?b ?c ?co ?g ?h !! _ = _ =>
      destruct (edit_data_lookups o d b c co g h) as (_ & _ & _ & _ & _ & ->)
  end.
  pose proof (with_devel_elem l (heap w)) as Hin.
  destruct (with_devel l (heap w) l); [by apply elem_of_nil in Hin|done].
Qed.

(** An error of the lookup that is no application error (the base client
    cannot reach the service, or a refusal comes without a message) is not
    taken for a missing package: [add_edit_package] passes it on, whatever
    owner was supplied, with the lookup as the only request sent. *)
Theorem lookup_error_propagates (pkg : string) (owner description : value)
    (branches : option loc) (cc_list comaintainers groups : value)
    (w : world) (e : exn) :
  fst (get_package_info server pkg None w) = Raise e ->
  is_AppError (Raise (A := unit) e) = false ->
  add_edit_package server py_str dumps pkg owner description branches
    cc_list comaintainers groups w
  = (Raise e,
     World (log w ++ [(lookup_request pkg,
                       server (map fst (log w)) (lookup_request pkg))])%list
           (heap w)).
Proof.
  intros He Hno.
  by rewrite add_edit_package_steps, (create_step_error _ _ _ _ _ _ He Hno).
Qed.

End StepProperties.

(** ** Runs of calls and the caller's lists *)

Section RunProperties.

Variable server : list request -> request -> result payload.
Variable py_str : value -> string.
Variable dumps : value -> string.

Lemma create_step_heap_eq (pkg : string) (owner description : value)
    (branches : option loc) (w : world) :
  heap (snd (create_step server py_str pkg owner description branches w))
  = match branches with
    | Some l =>
        if is_AppError (fst (get_package_info server pkg None w))
           && truthy owner
        then with_devel l (heap w)
        else heap w
    | None => heap w
    end.
Proof.
  pose proof (lookup_world server pkg w) as Hw1.
  unfold create_step, try_except_AppError, bind at 1.
  destruct (get_package_info server pkg None w) as [[p|e] w1];
    simpl in Hw1; subst w1; [by destruct branches|].
  destruct e; try by destruct branches.
  cbn [fst is_AppError andb].
  destruct (truthy owner); [|by destruct branches].
  rewrite heap_bind.
  - destruct branches as [l|]; [|reflexivity].
    unfold ensure_devel, with_devel, bind, deref. cbn [heap log].
    by destruct (bool_decide _).
  - intros _. apply keeps_heap_bind; [apply keeps_heap_send|].
    intros response. apply keeps_heap_status_check.
    intros; apply keeps_heap_raise.
Qed.

Lemma create_step_heap (pkg : string) (owner description : value)
    (branches : option loc) (w : world) :
  heap (snd (create_step server py_str pkg owner description branches w))
    = heap w
  \/ exists l, branches = Some l
               /\ heap (snd (create_step server py_str pkg owner description
                               branches w))
                  = with_devel l (heap w).
Proof.
  rewrite create_step_heap_eq. destruct branches as [l|]; [|by left].
  destruct (_ && _); [right; by exists l|by left].
Qed.

Lemma run_call_heap (c : call) (w : world) :
  heap (snd (run_call server py_str dumps c w)) = heap w
  \/ exists l, call_branches c = Some l
               /\ heap (snd (run_call server py_str dumps c w))
                  = with_devel l (heap w).
Proof.
  unfold run_call. rewrite add_edit_package_steps.
  pose proof (create_step_heap (call_pkg c) (call_owner c)
                (call_description c) (call_branches c) w) as H.
  destruct (create_step _ _ _ _ _ _ w) as [[[o d]|e] w1]; [|exact H].
  rewrite edit_step_run. exact H.
Qed.

Lemma run_call_heap_at (c : call) (w : world) (l : loc) :
  let h' := heap (snd (run_call server py_str dumps c w)) in
  (h' l = heap w l \/ h' l = (heap w l ++ ["devel"])%list)
  /\ ("devel" ∈ heap w l -> h' l = heap w l).
Proof.
  cbv zeta. destruct (run_call_heap c w) as [-> | (l' & _ & ->)];
    [by split; [left|]|].
  destruct (decide (l' = l)) as [->|Hne].
  - split; [apply with_devel_at|].
    intros Hin. by rewrite with_devel_present.
  - rewrite with_devel_other by done. by split; [left|].
Qed.

Lemma run_calls_devel_present (cs : list call) (w : world) (l : loc) :
  "devel" ∈ heap w l ->
  heap (run_calls server py_str dumps cs w) l = heap w l.
Proof.
  revert w. induction cs as [|c cs IH]; intros w Hin; [reflexivity|].
  simpl. destruct (run_call_heap_at c w l) as [_ Hsame].
  rewrite IH; rewrite (Hsame Hin); done.
Qed.

(** However many calls of [add_edit_package] are made, with whatever
    arguments and outcomes, each list object ends as it began or with one
    "devel" added at its end; a list that holds "devel" is never
    changed. *)
Theorem devel_appended_at_most_once (cs : list call) (w : world) (l : loc) :
  let h' := heap (run_calls server py_str dumps cs w) in
  (h' l = heap w l \/ h' l = (heap w l ++ ["devel"])%list)
  /\ ("devel" ∈ heap w l -> h' l = heap w l).
Proof.
  cbv zeta. split; [|apply run_calls_devel_present].
  revert w. induction cs as [|c cs IH]; intros w; [by left|].
  simpl. destruct (run_call_heap_at c w l) as [[Hsame|Hadd] _].
  - rewrite <- Hsame. apply IH.
  - right. rewrite run_calls_devel_present; [done|].
    rewrite Hadd. set_solver.
Qed.

End RunProperties.

(** ** Which requests are authenticated *)

Section RequestProperties.

Variable server : list request -> request -> result payload.
Variable py_str : value -> string.
Variable dumps : value -> string.
Variable P : request -> Prop.

Lemma sends_silent {A} (m : M A) :
  (forall w, log (snd (m w)) = log w) -> sends P m.
Proof. intros H w. exists []. by rewrite H, app_nil_r. Qed.

Lemma sends_send (method : string) (a : bool) (params : option payload) :
  P (Request method a params) -> sends P (send_request server method a params).
Proof.
  intros HP w. eexists [(_, _)]. split; [reflexivity|].
  by repeat constructor.
Qed.

Lemma sends_bind {A B} (m : M A) (k : A -> M B) :
  sends P m -> (forall x, sends P (k x)) -> sends P (bind m k).
Proof.
  intros Hm Hk w. destruct (Hm w) as (c1 & Hlog1 & HP1).
  unfold bind. destruct (m w) as [[x|e] w1]; simpl in *; [|by exists c1].
  destruct (Hk x w1) as (c2 & Hlog2 & HP2).
  exists (c1 ++ c2)%list. rewrite Hlog2, Hlog1, app_assoc.
  split; [reflexivity|]. by apply Forall_app.
Qed.

Lemma sends_try {A} (body handler : M A) :
  sends P body -> sends P handler -> sends P (try_except_AppError body handler).
Proof.
  intros Hb Hh w. destruct (Hb w) as (c1 & Hlog1 & HP1).
  unfold try_except_AppError.
  destruct (body w) as [[x|e] w1]; simpl in *; [by exists c1|].
  destruct e; try by exists c1.
  destruct (Hh w1) as (c2 & Hlog2 & HP2).
  exists (c1 ++ c2)%list. rewrite Hlog2, Hlog1, app_assoc.
  split; [reflexivity|]. by apply Forall_app.
Qed.

Lemma sends_status_check {A} (response : payload) (k : value -> M A) (a : A) :
  (forall msg, sends P (k msg)) ->
  sends P (if status_failed response
           then msg <~ getitem response "message" ;; k msg
           else ret a).
Proof.
  intros Hk. destruct (status_failed response); [|by apply sends_silent].
  apply sends_bind; [|done]. apply sends_silent.
  intros w. unfold getitem. by destruct (response !! "message").
Qed.

End RequestProperties.

Section AuthProperties.

Variable server : list request -> request -> result payload.
Variable py_str : value -> string.
Variable dumps : value -> string.

Lemma lookup_path_discipline (rest : string) (params : option payload) :
  auth_discipline (Request ("/packages/name/" +:+ rest) false params).
Proof. unfold auth_discipline. by destruct rest. Qed.

(** Every request of every method follows one rule: it is sent
    unauthenticated when it is a lookup under [/packages/name/] and
    authenticated otherwise, so that reading needs no credentials and
    every change does. *)
Theorem requests_follow_auth_discipline :
  (forall pkg branch,
     sends auth_discipline (get_package_info server pkg branch))
  /\ (forall pkg branch master email_log,
        sends auth_discipline (clone_branch server pkg branch master email_log))
  /\ (forall branch, sends auth_discipline (mass_branch server branch))
  /\ (forall package collection collection_ver,
        sends auth_discipline
          (get_owners server package collection collection_ver))
  /\ (forall username pkg_name collectn_list,
        sends auth_discipline
          (remove_user server username pkg_name collectn_list))
  /\ (forall pkg owner description branches cc_list comaintainers groups,
        sends auth_discipline
          (add_edit_package server py_str dumps pkg owner description
             branches cc_list comaintainers groups)).
Proof.
  assert (forall pkg branch,
            sends auth_discipline (get_package_info server pkg branch)) as Hgpi.
  { intros pkg branch. unfold get_package_info. apply sends_bind.
    - destruct branch as [b|]; [|by apply sends_silent].
      destruct (truthy (VStr b)); [|by apply sends_silent].
      apply sends_bind; [by apply sends_silent|].
      intros [c v]. by apply sends_silent.
    - intros data. apply sends_bind;
        [apply sends_send, lookup_path_discipline|].
      intros info. apply sends_status_check.
      intros; by apply sends_silent. }
  repeat split; [exact Hgpi|..].
  - intros. by apply sends_send.
  - intros. by apply sends_send.
  - intros package c cv. unfold get_owners. cbv zeta.
    match goal with
    | |- context [send_request server ?m false None] => set (method := m)
    end.
    assert (exists rest, method = "/packages/name/" +:+ rest) as [rest ->].
    { unfold method. destruct c as [c|]; [|by exists package].
      destruct (truthy (VStr c)); [|by exists package].
      destruct cv as [v|]; [destruct (truthy (VStr v))|].
      - by exists ((package +:+ "/" +:+ c) +:+ "/" +:+ v).
      - by exists (package +:+ "/" +:+ c).
      - by exists (package +:+ "/" +:+ c). }
    apply sends_bind; [apply sends_send, lookup_path_discipline|].
    intros response. apply sends_status_check.
    intros; by apply sends_silent.
  - intros. by apply sends_send.
  - intros pkg owner description branches cc co gr.
    unfold add_edit_package. apply sends_bind.
    + apply sends_try.
      * apply sends_bind; [apply Hgpi|]. intros; by apply sends_silent.
      * destruct (truthy owner); [|by apply sends_silent].
        apply sends_bind.
        { destruct branches as [l|]; [|by apply sends_silent].
          apply sends_bind; [by apply sends_silent|].
          intros bs. destruct (bool_decide _); by apply sends_silent. }
        intros _. apply sends_bind; [by apply sends_send|].
        intros response. apply sends_status_check.
        intros; by apply sends_silent.
    + intros [o d]. apply sends_bind.
      { destruct branches as [l|]; [|by apply sends_silent].
        apply sends_bind; [by apply sends_silent|].
        intros; by apply sends_silent. }
      intros data. apply sends_bind; [by apply sends_send|].
      intros response. apply sends_status_check.
      intros; by apply sends_silent.
Qed.

End AuthProperties.

(** ** What the lookups ask for *)

Lemma append_assoc (a b c : string) : (a +:+ b) +:+ c = a +:+ b +:+ c.
Proof.
  induction a as [|x a IH]; [reflexivity|].
  change (String x (a +:+ b) +:+ c = String x (a +:+ b +:+ c)).
  change (String x ((a +:+ b) +:+ c) = String x (a +:+ b +:+ c)).
  by rewrite IH.
Qed.

Section LookupProperties.

Variable server : list request -> request -> result payload.

(** A package lookup scoped to a branch that resolves to [(c, v)] sends
    [collectionName = c] and [collectionVersion = v] and nothing else as
    parameters; an empty branch token is treated as no branch at all. *)
Theorem scoped_lookup_request (pkg b c v : string) (w : world) :
  b <> "" ->
  canonical_branch_name b = Return (c, v) ->
  (exists params : payload,
     map fst (log (snd (get_package_info server pkg (Some b) w)))
     = (map fst (log w) ++ [Request ("/packages/name/" +:+ pkg) false
                              (Some params)])%list
     /\ params !! "collectionName" = Some (VStr c)
     /\ params !! "collectionVersion" = Some (VStr v)
     /\ dom params = ({["collectionName"; "collectionVersion"]} : gset string))
  /\ get_package_info server pkg (Some "") w
     = get_package_info server pkg None w.
Proof.
  intros Hne Hcv. split; [|reflexivity].
  exists (branch_params c v).
  split; [|split; [reflexivity|split; [reflexivity|]]].
  - assert (get_package_info server pkg (Some b) w
            = checked server (Request ("/packages/name/" +:+ pkg) false
                                (Some (branch_params c v))) w) as ->.
    { unfold get_package_info. cbn [truthy].
      apply String.eqb_neq in Hne. rewrite Hne. cbn [negb].
      unfold bind at 1. unfold bind at 1. unfold lift at 1. rewrite Hcv.
      apply (send_checked server (Request _ false _)). }
    rewrite checked_world. cbn [log]. by rewrite map_app.
  - unfold branch_params. rewrite !dom_insert_L, dom_empty_L. set_solver.
Qed.

(** The ownership query asks for
    [/packages/name/<package>/<collection>/<version>] when both a
    collection and a version are given; a version given without a
    collection is ignored, and an empty collection or version counts as
    not given. *)
Theorem get_owners_request (package c v : string) (w : world) :
  c <> "" -> v <> "" ->
  map fst (log (snd (get_owners server package (Some c) (Some v) w)))
  = (map fst (log w)
     ++ [Request ("/packages/name/" +:+ package +:+ "/" +:+ c +:+ "/" +:+ v)
           false None])%list
  /\ (forall cv, get_owners server package None cv w
                 = get_owners server package None None w)
  /\ (forall cv, get_owners server package (Some "") cv w
                 = get_owners server package None None w)
  /\ get_owners server package (Some c) (Some "") w
     = get_owners server package (Some c) None w.
Proof.
  intros Hc Hv. apply String.eqb_neq in Hc, Hv.
  assert (truthy (VStr c) = true) as Hct by (simpl; by rewrite Hc).
  assert (truthy (VStr v) = true) as Hvt by (simpl; by rewrite Hv).
  split; [|split; [done|split; [done|]]].
  - assert (get_owners server package (Some c) (Some v) w
            = checked server
                (Request ("/packages/name/" +:+ package +:+ "/" +:+ c
                          +:+ "/" +:+ v) false None) w) as ->.
    { unfold get_owners. rewrite Hct, Hvt. cbv zeta.
      rewrite !append_assoc.
      apply (send_checked server (Request _ false None)). }
    rewrite checked_world. cbn [log]. by rewrite map_app.
  - unfold get_owners. by rewrite Hct.
Qed.

End LookupProperties.

(** ** The constructor *)

(** The constructor never overrides a keyword argument of the caller: a
    [useragent] that is given, be it [None] or empty, goes to the base
    client as it is.  Only when the key is absent is the user agent set,
    to "Fedora PackageDB Client/<version>"; so the base client always gets
    one.  The base URL is the caller's, or the Fedora instance. *)
Theorem PackageDB_init_useragent (version : string) (base_url : option string)
    (args : list value) (kwargs : gmap string value) :
  exists kwargs',
    PackageDB_init version base_url args kwargs
    = (default "https://admin.fedoraproject.org/pkgdb/" base_url, args, kwargs')
    /\ (forall k x, kwargs !! k = Some x -> kwargs' !! k = Some x)
    /\ (forall k, k <> "useragent" -> kwargs' !! k = kwargs !! k)
    /\ is_Some (kwargs' !! "useragent")
    /\ (kwargs !! "useragent" = None ->
        kwargs' !! "useragent"
        = Some (VStr ("Fedora PackageDB Client/" +:+ version))).
Proof.
  unfold PackageDB_init. eexists. split; [reflexivity|].
  case_bool_decide as Hua.
  - repeat split.
    + intros k x Hk. destruct (decide (k = "useragent")) as [->|Hne];
        [congruence|by rewrite lookup_insert_ne].
    + intros k Hne. by rewrite lookup_insert_ne.
    + rewrite lookup_insert_eq. by eexists.
    + intros _. by rewrite lookup_insert_eq.
  - repeat split; try done.
    by destruct (kwargs !! "useragent"); [eexists|].
Qed.

(** ** The further properties on the test services *)

Lemma existing_package_outcome_witness :
  fst (get_package_info Demo2.readonly_server "bash" None Demo.w0)
    = Return Demo.bash_info
  /\ exists data reply,
       add_edit_package Demo2.readonly_server Demo.str_of Demo.str_of "bash"
         (VStr "carol") VNone None VNone VNone VNone Demo.w0
       = (dispatcher_outcome Demo.str_of "Unable to save all information for "
            "bash" tt reply,
          World [(lookup_request "bash", Return Demo.bash_info);
                 (edit_request "bash" data, reply)] (fun _ => []))
       /\ reply = Demo2.readonly_server [lookup_request "bash"]
                    (edit_request "bash" data).
Proof.
  split; [reflexivity|].
  apply (existing_package_outcome Demo2.readonly_server Demo.str_of Demo.str_of
           "bash" (VStr "carol") VNone None VNone VNone VNone Demo.w0
           Demo.bash_info).
  reflexivity.
Defined.

Example existing_package_refused :
  fst (add_edit_package Demo2.readonly_server Demo.str_of Demo.str_of "bash"
         (VStr "carol") VNone None VNone VNone VNone Demo.w0)
  = Raise (AppError "PackageDBError"
             (VStr "Unable to save all information for bash: denied") VNone).
Proof. vm_compute. reflexivity. Qed.

Lemma existing_package_edit_request_witness :
  fst (get_package_info (Demo.always Demo.bash_info) "bash" None Demo.w1)
    = Return Demo.bash_info
  /\ exists data : payload,
       map fst (log (snd (add_edit_package (Demo.always Demo.bash_info)
                            Demo.str_of Demo.str_of "bash" (VStr "carol")
                            (VStr "") (Some 7) (VList [VStr "dave"]) VNone
                            (VList []) Demo.w1)))
       = [lookup_request "bash"; edit_request "bash" data]
       /\ data !! "owner" = Some (VStr "carol")
       /\ data !! "summary" = None
       /\ data !! "ccList" = Some (VStr "?")
       /\ data !! "comaintList" = None
       /\ data !! "groups" = None
       /\ data !! "collections" = Some (VList [VStr "F-10"]).
Proof.
  split; [reflexivity|].
  apply (existing_package_edit_request (Demo.always Demo.bash_info)
           Demo.str_of Demo.str_of "bash" (VStr "carol") (VStr "") (Some 7)
           (VList [VStr "dave"]) VNone (VList []) Demo.w1 Demo.bash_info).
  reflexivity.
Defined.

Lemma creation_refused_witness :
  is_AppError (fst (get_package_info Demo2.refusing_server "newpkg" None Demo.w1))
    = true
  /\ truthy (VStr "alice") = true
  /\ has_falsy_status Demo2.denied
  /\ add_edit_package Demo2.refusing_server Demo.str_of Demo.str_of "newpkg"
       (VStr "alice") VNone (Some 7) VNone VNone VNone Demo.w1
     = (Raise (AppError "PackageDBError"
                 (VStr "PackageDB returned an error creating newpkg: denied")
                 VNone),
        World [(lookup_request "newpkg", Return Demo.no_such_package);
               (create_request "newpkg" (VStr "alice") VNone,
                Return Demo2.denied)]
              (with_devel 7 (heap Demo.w1)))
  /\ "devel" ∈ with_devel 7 (heap Demo.w1) 7.
Proof.
  assert (has_falsy_status Demo2.denied) as Hbad
    by (exists (VBool false); split; reflexivity).
  split; [reflexivity|]. split; [reflexivity|]. split; [exact Hbad|].
  apply (creation_refused Demo2.refusing_server Demo.str_of Demo.str_of
           "newpkg" (VStr "alice") VNone 7 VNone VNone VNone Demo.w1
           Demo2.denied (VStr "denied"));
    [reflexivity | reflexivity | reflexivity | exact Hbad | reflexivity].
Defined.

Lemma created_package_gets_devel_witness :
  is_AppError (fst (get_package_info Demo.absent_server "newpkg" None Demo.w1))
    = true
  /\ truthy (VStr "alice") = true
  /\ exists data : payload,
       map fst (log (snd (add_edit_package Demo.absent_server Demo.str_of
                            Demo.str_of "newpkg" (VStr "alice") VNone (Some 7)
                            VNone VNone VNone Demo.w1)))
       = [lookup_request "newpkg";
          create_request "newpkg" (VStr "alice") VNone;
          edit_request "newpkg" data]
       /\ data !! "collections"
          = Some (VList (VStr <$>
                    heap (snd (add_edit_package Demo.absent_server Demo.str_of
                                 Demo.str_of "newpkg" (VStr "alice") VNone
                                 (Some 7) VNone VNone VNone Demo.w1)) 7))
       /\ "devel" ∈ heap (snd (add_edit_package Demo.absent_server Demo.str_of
                                Demo.str_of "newpkg" (VStr "alice") VNone
                                (Some 7) VNone VNone VNone Demo.w1)) 7.
Proof.
  split; [reflexivity|]. split; [reflexivity|].
  apply (created_package_gets_devel Demo.absent_server Demo.str_of Demo.str_of
           "newpkg" (VStr "alice") VNone 7 VNone VNone VNone Demo.w1 ∅);
    [reflexivity | reflexivity | reflexivity |].
  intros (s & Hs & _). rewrite lookup_empty in Hs. discriminate.
Defined.

Lemma lookup_error_propagates_witness :
  fst (get_package_info (Demo.always Demo.status_only) "bash" None Demo.w0)
    = Raise (KeyError "message")
  /\ add_edit_package (Demo.always Demo.status_only) Demo.str_of Demo.str_of
       "bash" (VStr "alice") VNone None VNone VNone VNone Demo.w0
     = (Raise (KeyError "message"),
        World [(lookup_request "bash", Return Demo.status_only)] (fun _ => [])).
Proof.
  split; [reflexivity|].
  apply (lookup_error_propagates (Demo.always Demo.status_only) Demo.str_of
           Demo.str_of "bash" (VStr "alice") VNone None VNone VNone VNone
           Demo.w0 (KeyError "message"));
    reflexivity.
Defined.

Example service_down_propagates :
  fst (add_edit_package Demo2.down_server Demo.str_of Demo.str_of
         "bash" VNone VNone None VNone VNone VNone Demo.w0)
  = Raise (OtherError "ServerError").
Proof. reflexivity. Qed.

Lemma scoped_lookup_request_witness :
  "EL-5" <> ""
  /\ canonical_branch_name "EL-5" = Return ("Fedora EPEL", "5")
  /\ exists params : payload,
       map fst (log (snd (get_package_info (Demo.always Demo.bash_info) "bash"
                            (Some "EL-5") Demo.w0)))
       = [Request "/packages/name/bash" false (Some params)]
       /\ params !! "collectionName" = Some (VStr "Fedora EPEL")
       /\ params !! "collectionVersion" = Some (VStr "5")
       /\ dom params = ({["collectionName"; "collectionVersion"]} : gset string).
Proof.
  split; [discriminate|]. split; [reflexivity|].
  apply (scoped_lookup_request (Demo.always Demo.bash_info) "bash" "EL-5"
           "Fedora EPEL" "5" Demo.w0); [discriminate|reflexivity].
Defined.

Lemma get_owners_request_witness :
  "Fedora" <> "" /\ "20" <> ""
  /\ map fst (log (snd (get_owners (Demo.always Demo.bash_info) "bash"
                          (Some "Fedora") (Some "20") Demo.w0)))
     = [Request "/packages/name/bash/Fedora/20" false None].
Proof.
  split; [discriminate|]. split; [discriminate|].
  apply (get_owners_request (Demo.always Demo.bash_info) "bash" "Fedora" "20"
           Demo.w0); discriminate.
Defined.

Example run_of_calls :
  heap (run_calls Demo.absent_server Demo.str_of Demo.str_of
          [Call "a" (VStr "alice") VNone (Some 7) VNone VNone VNone;
           Call "b" (VStr "bob") VNone (Some 7) VNone VNone VNone;
           Call "c" VNone VNone (Some 7) VNone VNone VNone] Demo.w1) 7
  = ["F-10"; "devel"].
Proof. reflexivity. Qed.
